(** * octelium / vigil / modes / httpg : the proxy request pipeline

  A shallow embedding of [package httpg] (direct-response handler, the
  [getProxy] Director / ErrorHandler closures, [isWebSocketUpgrade] and
  [fixWebSocketHeaders]) together with the pieces of the Go standard
  library the package calls into ([http.Header], [http.ResponseWriter],
  [errors.Is] / [errors.As], [http.StatusText], [httpguts] token search,
  the dispatch step of [httputil.ReverseProxy]).

  Go strings are byte strings ([string]); a Go [map[string][]string] is a
  [gmap string (list string)], where indexing a missing key yields the nil
  slice (modelled as [[]]). *)

From Stdlib Require Import ZArith Ascii String List Bool.
From stdpp Require Import base option list strings gmap fin_maps.

Open Scope string_scope.
Open Scope Z_scope.

(** ** Bytes and strings (package [strings], [unicode/utf8]) *)

Module GoBytes.

Definition code (c : ascii) : Z := Z.of_N (N_of_ascii c).

Definition RuneSelf : Z := 128.

Definition isUpper (c : ascii) : bool := (65 <=? code c) && (code c <=? 90).
Definition isLower (c : ascii) : bool := (97 <=? code c) && (code c <=? 122).
Definition isDigit (c : ascii) : bool := (48 <=? code c) && (code c <=? 57).

Definition ofCode (z : Z) : ascii := ascii_of_N (Z.to_N z).

(** [lowerASCII] of golang.org/x/net/http/httpguts. *)
Definition lowerASCII (c : ascii) : ascii :=
  if isUpper c then ofCode (code c + 32) else c.

Definition upperASCII (c : ascii) : ascii :=
  if isLower c then ofCode (code c - 32) else c.

End GoBytes.

Module strings.

(** [strings.ReplaceAll(s, ";", "&")]: both patterns are one ASCII byte, so
    the replacement is byte-wise. *)
Fixpoint ReplaceAllByte (s : string) (old new : ascii) : string :=
  match s with
  | EmptyString => EmptyString
  | String c r =>
      String (if Ascii.eqb c old then new else c) (ReplaceAllByte r old new)
  end.

(** The ASCII fragment of [strings.EqualFold]: exact whenever both arguments
    are ASCII. Used to instantiate the [EqualFold] parameter on concrete
    requests. *)
Fixpoint asciiEqualFold (s t : string) : bool :=
  match s, t with
  | EmptyString, EmptyString => true
  | String a s', String b t' =>
      Ascii.eqb (GoBytes.lowerASCII a) (GoBytes.lowerASCII b) && asciiEqualFold s' t'
  | _, _ => false
  end.

End strings.

(** ** [net/textproto]: canonical header keys *)

Module textproto.

(** [validHeaderFieldByte]: the RFC 7230 token characters. *)
Definition validHeaderFieldByte (c : ascii) : bool :=
  GoBytes.isUpper c || GoBytes.isLower c || GoBytes.isDigit c ||
  existsb (Ascii.eqb c)
    ["!"; "#"; "$"; "%"; "&"; "'"; "*"; "+"; "-"; "."; "^"; "_"; "`"; "|"; "~"]%char.

Fixpoint allValid (s : string) : bool :=
  match s with
  | EmptyString => true
  | String c r => validHeaderFieldByte c && allValid r
  end.

(** The rewriting loop of [canonicalMIMEHeaderKey]: upper-case the first
    letter and every letter after a hyphen, lower-case the others. *)
Fixpoint canonLoop (upper : bool) (s : string) : string :=
  match s with
  | EmptyString => EmptyString
  | String c r =>
      let c' := if upper then GoBytes.upperASCII c else GoBytes.lowerASCII c in
      String c' (canonLoop (Ascii.eqb c' "-") r)
  end.

(** [textproto.CanonicalMIMEHeaderKey]: a key holding a byte that is not a
    token character (a space included) is returned unchanged. *)
Definition CanonicalMIMEHeaderKey (s : string) : string :=
  if allValid s then canonLoop true s else s.

End textproto.

(** ** [net/http.Header] *)

Abbreviation Header := (gmap string (list string)).

Module HeaderOps.

(** [h[key]]: the nil slice for a missing key. *)
Definition index (h : Header) (key : string) : list string :=
  default [] (h !! key).

(** [_, ok := h[key]] *)
Definition has (h : Header) (key : string) : bool :=
  bool_decide (is_Some (h !! key)).

(** [h[key] = vs] *)
Definition assign (h : Header) (key : string) (vs : list string) : Header :=
  <[key := vs]> h.

Definition Get (h : Header) (key : string) : string :=
  match index h (textproto.CanonicalMIMEHeaderKey key) with
  | [] => ""
  | v :: _ => v
  end.

Definition Set_ (h : Header) (key value : string) : Header :=
  <[textproto.CanonicalMIMEHeaderKey key := [value]]> h.

Definition Del (h : Header) (key : string) : Header :=
  delete (textproto.CanonicalMIMEHeaderKey key) h.

End HeaderOps.

(** ** [golang.org/x/net/http/httpguts]: token search in header values *)

Module httpguts.

Definition isOWS (c : ascii) : bool :=
  Ascii.eqb c " " || Ascii.eqb c "009".

Fixpoint trimLeft (x : string) : string :=
  match x with
  | String c r => if isOWS c then trimLeft r else x
  | EmptyString => EmptyString
  end.

Fixpoint trimRight (x : string) : string :=
  match x with
  | EmptyString => EmptyString
  | String c r =>
      match trimRight r with
      | EmptyString => if isOWS c then EmptyString else String c EmptyString
      | r' => String c r'
      end
  end.

Definition trimOWS (x : string) : string := trimRight (trimLeft x).

(** [tokenEqual]: equal lengths, no byte at or above [utf8.RuneSelf] in
    [t1], and byte-wise equality up to ASCII case. *)
Fixpoint tokenEqual (t1 t2 : string) : bool :=
  match t1, t2 with
  | EmptyString, EmptyString => true
  | String a r1, String b r2 =>
      (GoBytes.code a <? GoBytes.RuneSelf) &&
      Ascii.eqb (GoBytes.lowerASCII a) (GoBytes.lowerASCII b) &&
      tokenEqual r1 r2
  | _, _ => false
  end.

(** The comma-separated pieces [v[:comma]], ..., and the remainder that the
    loop of [headerValueContainsToken] visits in turn. *)
Fixpoint commaFields (v : string) : list string :=
  match v with
  | EmptyString => [EmptyString]
  | String c r =>
      if Ascii.eqb c ","
      then EmptyString :: commaFields r
      else match commaFields r with
           | f :: fs => String c f :: fs
           | [] => [String c EmptyString]
           end
  end.

Definition headerValueContainsToken (v token : string) : bool :=
  existsb (fun f => tokenEqual (trimOWS f) token) (commaFields v).

Definition HeaderValuesContainsToken (values : list string) (token : string) : bool :=
  existsb (fun v => headerValueContainsToken v token) values.

End httpguts.

(** ** Go errors: [errors.Is], [errors.As] over the wrap tree *)

(** Error values as the classifier can tell them apart: the two sentinels it
    compares against, [context.DeadlineExceeded] (which implements
    [net.Error]), opaque errors, [%w]-wrapping, a [net.Error] implementation
    with its [Timeout()] flag and wrapped cause (such as [*net.OpError]), and
    [errors.Join]. *)
Inductive GoError : Type :=
| io_EOF
| context_Canceled
| context_DeadlineExceeded
| errorString (msg : string)
| wrapError (msg : string) (err : GoError)
| netError (timeout : bool) (err : GoError)
| joinError (e1 e2 : GoError).

#[global] Instance GoError_eq_dec : EqDecision GoError.
Proof.
  intros x y; unfold Decision.
  decide equality; first [ apply String.string_dec | apply Bool.bool_dec ].
Defined.

Module errors.

(** [errors.Is]: depth-first, pre-order walk of the tree built by [Unwrap]. *)
Fixpoint Is (err target : GoError) : bool :=
  bool_decide (err = target) ||
  match err with
  | wrapError _ e => Is e target
  | netError _ e => Is e target
  | joinError a b => Is a target || Is b target
  | _ => false
  end.

(** [errors.As(err, &netErr)] for [var netErr net.Error]: the first value of
    the walk that implements [net.Error]; the result is its [Timeout()]. *)
Fixpoint AsNetError (err : GoError) : option bool :=
  match err with
  | context_DeadlineExceeded => Some true
  | netError t _ => Some t
  | wrapError _ e => AsNetError e
  | joinError a b =>
      match AsNetError a with
      | Some t => Some t
      | None => AsNetError b
      end
  | _ => None
  end.

End errors.

Inductive result (A : Type) : Type :=
| Ok (a : A)
| Err (e : GoError).
Arguments Ok {A} a.
Arguments Err {A} e.

(** ** [net/http]: status codes, status text, [ResponseWriter] *)

Module http.

Definition StatusOK : Z := 200.
Definition StatusInternalServerError : Z := 500.
Definition StatusBadGateway : Z := 502.
Definition StatusGatewayTimeout : Z := 504.

(** [http.StatusText]: the empty string for a code outside the table. *)
Definition StatusText (code : Z) : string :=
  match code with
  | 100 => "Continue"
  | 101 => "Switching Protocols"
  | 102 => "Processing"
  | 103 => "Early Hints"
  | 200 => "OK"
  | 201 => "Created"
  | 202 => "Accepted"
  | 203 => "Non-Authoritative Information"
  | 204 => "No Content"
  | 205 => "Reset Content"
  | 206 => "Partial Content"
  | 207 => "Multi-Status"
  | 208 => "Already Reported"
  | 226 => "IM Used"
  | 300 => "Multiple Choices"
  | 301 => "Moved Permanently"
  | 302 => "Found"
  | 303 => "See Other"
  | 304 => "Not Modified"
  | 305 => "Use Proxy"
  | 307 => "Temporary Redirect"
  | 308 => "Permanent Redirect"
  | 400 => "Bad Request"
  | 401 => "Unauthorized"
  | 402 => "Payment Required"
  | 403 => "Forbidden"
  | 404 => "Not Found"
  | 405 => "Method Not Allowed"
  | 406 => "Not Acceptable"
  | 407 => "Proxy Authentication Required"
  | 408 => "Request Timeout"
  | 409 => "Conflict"
  | 410 => "Gone"
  | 411 => "Length Required"
  | 412 => "Precondition Failed"
  | 413 => "Request Entity Too Large"
  | 414 => "Request URI Too Long"
  | 415 => "Unsupported Media Type"
  | 416 => "Requested Range Not Satisfiable"
  | 417 => "Expectation Failed"
  | 418 => "I'm a teapot"
  | 421 => "Misdirected Request"
  | 422 => "Unprocessable Entity"
  | 423 => "Locked"
  | 424 => "Failed Dependency"
  | 425 => "Too Early"
  | 426 => "Upgrade Required"
  | 428 => "Precondition Required"
  | 429 => "Too Many Requests"
  | 431 => "Request Header Fields Too Large"
  | 451 => "Unavailable For Legal Reasons"
  | 500 => "Internal Server Error"
  | 501 => "Not Implemented"
  | 502 => "Bad Gateway"
  | 503 => "Service Unavailable"
  | 504 => "Gateway Timeout"
  | 505 => "HTTP Version Not Supported"
  | 506 => "Variant Also Negotiates"
  | 507 => "Insufficient Storage"
  | 508 => "Loop Detected"
  | 510 => "Not Extended"
  | 511 => "Network Authentication Required"
  | _ => ""
  end.

End http.

(** The state behind an [http.ResponseWriter], following the interface's
    contract: the status line is committed by the first [WriteHeader], or
    implicitly with 200 by the first [Write]; a later [WriteHeader] is
    superfluous and ignored; the header map the handler holds stays mutable,
    but what is sent is the map as it stood when the status was committed.
    Headers the server adds on its own account (a date, a sniffed content
    type, a content length) are not part of this state. *)
Module ResponseWriter.

Record t : Type := mk {
  header : Header;        (* the map returned by w.Header() *)
  wroteHeader : bool;
  status : Z;             (* the committed status code, once wroteHeader *)
  sentHeader : Header;    (* the header map as committed with the status *)
  body : string
}.

Definition fresh : t :=
  {| header := ∅; wroteHeader := false; status := 0; sentHeader := ∅; body := "" |}.

Definition WriteHeader (w : t) (statusCode : Z) : t :=
  if wroteHeader w then w
  else {| header := header w; wroteHeader := true; status := statusCode;
          sentHeader := header w; body := body w |}.

Definition Write (w : t) (b : string) : t :=
  let w := if wroteHeader w then w else WriteHeader w http.StatusOK in
  {| header := header w; wroteHeader := wroteHeader w; status := status w;
     sentHeader := sentHeader w; body := body w ++ b |}.

(** [w.Header().Set(key, value)] *)
Definition HeaderSet (w : t) (key value : string) : t :=
  {| header := HeaderOps.Set_ (header w) key value; wroteHeader := wroteHeader w;
     status := status w; sentHeader := sentHeader w; body := body w |}.

(** What the server does when the handler returns without having written. *)
Definition finish (w : t) : t :=
  if wroteHeader w then w else WriteHeader w http.StatusOK.

End ResponseWriter.

(** ** Data model: requests, upstreams, the route configuration *)

Module URL.

Record t : Type := mk {
  Scheme : string;
  Host : string;
  Path : string;
  RawQuery : string
}.

End URL.

Module Request.

Record t : Type := mk {
  Method : string;
  URL : URL.t;
  Host : string;
  RequestURI : string;
  Header : Header;
  Proto : string;
  ProtoMajor : Z;
  ProtoMinor : Z
}.

Definition setHeader (r : t) (h : gmap string (list string)) : t :=
  mk (Method r) (URL r) (Host r) (RequestURI r) h (Proto r) (ProtoMajor r) (ProtoMinor r).

Definition setURL (r : t) (u : URL.t) : t :=
  mk (Method r) u (Host r) (RequestURI r) (Header r) (Proto r) (ProtoMajor r) (ProtoMinor r).

Definition setHost (r : t) (host : string) : t :=
  mk (Method r) (URL r) host (RequestURI r) (Header r) (Proto r) (ProtoMajor r) (ProtoMinor r).

Definition setRequestURI (r : t) (uri : string) : t :=
  mk (Method r) (URL r) (Host r) uri (Header r) (Proto r) (ProtoMajor r) (ProtoMinor r).

Definition setProto (r : t) (proto : string) (major minor : Z) : t :=
  mk (Method r) (URL r) (Host r) (RequestURI r) (Header r) proto major minor.

Definition setURLScheme (r : t) (scheme : string) : t :=
  setURL r (URL.mk scheme (URL.Host (URL r)) (URL.Path (URL r)) (URL.RawQuery (URL r))).

Definition setURLHost (r : t) (host : string) : t :=
  setURL r (URL.mk (URL.Scheme (URL r)) host (URL.Path (URL r)) (URL.RawQuery (URL r))).

Definition setURLRawQuery (r : t) (q : string) : t :=
  setURL r (URL.mk (URL.Scheme (URL r)) (URL.Host (URL r)) (URL.Path (URL r)) q).

End Request.

Module Response.

Record t : Type := mk {
  StatusCode : Z;
  Header : Header;
  Body : string
}.

End Response.

(** [loadbalancer.Upstream] *)
Module Upstream.

Record t : Type := mk {
  URL : URL.t;
  HostPort : string;
  IsUser : bool
}.

End Upstream.

(** [corev1.Service_Spec_Config_HTTP_Response_Direct]; [Type] is the oneof,
    [None] when unset. *)
Module Direct.

Inductive isType : Type :=
| Inline (s : string)
| InlineBytes (b : string).

Record t : Type := mk {
  Type_ : option isType;
  ContentType : string;
  StatusCode : Z
}.

End Direct.

(** [corev1.Service_Spec_Config_HTTP_Auth_Sigv4]; [FromSecret] is the result
    of [GetSecretAccessKey().GetFromSecret()]. *)
Module Sigv4.

Record t : Type := mk {
  AccessKeyID : string;
  FromSecret : string;
  Service : string;
  Region : string
}.

End Sigv4.

(** [corev1.Service_Spec_Config]: pointers are options. *)
Module Config.

Record ClientCertificate : Type := mkClientCertificate {
  certFromSecret : string
}.

Record TLS : Type := mkTLS {
  tlsClientCertificate : option ClientCertificate
}.

Record HTTP : Type := mkHTTP {
  ResponseDirect : option Direct.t;   (* Response.GetDirect(), nil-safe *)
  AuthSigv4 : option Sigv4.t          (* GetAuth().GetSigv4(), nil-safe *)
}.

Record t : Type := mk {
  ClientCertificate_ : option ClientCertificate;
  Tls : option TLS;
  Http : option HTTP
}.

(** [cfg.GetHttp().Response.GetDirect()] under the nil guards of [getProxy]. *)
Definition GetDirect (cfg : option t) : option Direct.t :=
  c ← cfg; h ← Http c; ResponseDirect h.

(** [cfg.GetHttp().GetAuth().GetSigv4()] under the nil guards of the Director. *)
Definition GetSigv4 (cfg : option t) : option Sigv4.t :=
  c ← cfg; h ← Http c; AuthSigv4 h.

End Config.

Module aws.

Record Credentials : Type := mkCredentials {
  AccessKeyID : string;
  SecretAccessKey : string
}.

End aws.

(** ** Collaborators *)

(** Everything [package httpg] consumes but does not define: the Service
    type with the two predicates on it, the [Server]'s upstream resolver,
    secret store and transport resolver, the SigV4 signer, and the standard
    library functions whose results are only passed along. *)
Class Collaborators : Type := {
  Service : Type;
  AuthResponse : Type;
  (** [ucorev1.ToService(svc).IsManagedService()] *)
  IsManagedService : Service -> bool;
  isHTTP2RequestUpstream : Request.t -> Service -> bool;
  (** [s.lbManager.GetUpstream(ctx, authResponse)] *)
  GetUpstream : AuthResponse -> result Upstream.t;
  (** [s.getRoundTripper(upstream)]; a round tripper maps the outbound
      request to a response or a transport error. *)
  getRoundTripper : Upstream.t -> result (Request.t -> result Response.t);
  (** [s.secretMan.GetByName(ctx, name)], the secret's value on success. *)
  GetByName : string -> result string;
  (** [fmt.Sprintf("%x", sha256.Sum256(body))] *)
  sha256Hex : string -> string;
  (** [sigv4.NewSigner().SignHTTP(ctx, creds, r, payloadHash, service,
      region, time.Now())]: the request as the signer leaves it, and the error. *)
  SignHTTP : aws.Credentials -> Request.t -> string -> string -> string ->
             Request.t * option GoError;
  (** The [String] method of [url.URL] *)
  URLString : URL.t -> string;
  (** [strings.EqualFold] *)
  EqualFold : string -> string -> bool;
  (** What [httputil.ReverseProxy.ServeHTTP] itself does to the outbound
      request after the Director has returned and before the round trip. *)
  proxyPrepare : Request.t -> Request.t
}.

(** [reqCtx := middlewares.GetCtxRequestContext(ctx)] *)
Record RequestContext `{Collaborators} : Type := mkRequestContext {
  ctxService : Service;
  ServiceConfig : option Config.t;
  ctxAuthResponse : AuthResponse;
  Body : string
}.

(** ** [package httpg] *)

Section httpg.
Context `{Collaborators}.

(** *** [directResponseHandler.ServeHTTP] *)

Definition directResponseFinish (resp : Direct.t) (w : ResponseWriter.t) : ResponseWriter.t :=
  let w := if negb (String.eqb (Direct.ContentType resp) "")
           then ResponseWriter.HeaderSet w "Content-Type" (Direct.ContentType resp)
           else w in
  let w := if (200 <=? Direct.StatusCode resp) && (Direct.StatusCode resp <=? 599)
           then ResponseWriter.WriteHeader w (Direct.StatusCode resp)
           else w in
  ResponseWriter.HeaderSet w "Server" "octelium".

Definition directResponseHandler_ServeHTTP (resp : Direct.t) (w : ResponseWriter.t)
  : ResponseWriter.t :=
  match Direct.Type_ resp with
  | Some (Direct.Inline s) => directResponseFinish resp (ResponseWriter.Write w s)
  | Some (Direct.InlineBytes b) => directResponseFinish resp (ResponseWriter.Write w b)
  | None => ResponseWriter.WriteHeader w http.StatusInternalServerError
  end.

(** *** [isWebSocketUpgrade], [fixWebSocketHeaders] *)

Definition isWebSocketUpgrade (req : Request.t) : bool :=
  if negb (httpguts.HeaderValuesContainsToken
             (HeaderOps.index (Request.Header req) "Connection") "Upgrade")
  then false
  else EqualFold (HeaderOps.Get (Request.Header req) "Upgrade") "websocket".

(** The five handshake headers: the mixed-case key written and the
    canonical-cased key read and then deleted. *)
Definition wsHeaderPairs : list (string * string) :=
  [ ("Sec-WebSocket-Key", "Sec-Websocket-Key");
    ("Sec-WebSocket-Extensions", "Sec-Websocket-Extensions");
    ("Sec-WebSocket-Accept", "Sec-Websocket-Accept");
    ("Sec-WebSocket-Protocol", "Sec-Websocket-Protocol");
    ("Sec-WebSocket-Version", "Sec-Websocket-Version") ].

Definition fixWebSocketHeaders (outReq : Request.t) : Request.t :=
  if negb (isWebSocketUpgrade outReq) then outReq
  else
    let h := Request.Header outReq in
    let h := HeaderOps.assign h "Sec-WebSocket-Key" (HeaderOps.index h "Sec-Websocket-Key") in
    let h := HeaderOps.assign h "Sec-WebSocket-Extensions" (HeaderOps.index h "Sec-Websocket-Extensions") in
    let h := HeaderOps.assign h "Sec-WebSocket-Accept" (HeaderOps.index h "Sec-Websocket-Accept") in
    let h := HeaderOps.assign h "Sec-WebSocket-Protocol" (HeaderOps.index h "Sec-Websocket-Protocol") in
    let h := HeaderOps.assign h "Sec-WebSocket-Version" (HeaderOps.index h "Sec-Websocket-Version") in
    let h := delete "Sec-Websocket-Key" h in
    let h := delete "Sec-Websocket-Extensions" h in
    let h := delete "Sec-Websocket-Accept" h in
    let h := delete "Sec-Websocket-Protocol" h in
    let h := delete "Sec-Websocket-Version" h in
    Request.setHeader outReq h.

(** *** The Director closure of [getProxy] *)

Definition isSet {A : Type} (p : option A) : bool :=
  match p with Some _ => true | None => false end.

(** The guard of the [default] arm of the scheme switch:
    [cfg != nil && (cfg.ClientCertificate != nil ||
     (cfg.Tls != nil && cfg.Tls.ClientCertificate != nil))]. *)
Definition declaresClientCertificate (cfg : option Config.t) : bool :=
  match cfg with
  | Some c =>
      isSet (Config.ClientCertificate_ c) ||
      match Config.Tls c with
      | Some tls => isSet (Config.tlsClientCertificate tls)
      | None => false
      end
  | None => false
  end.

Definition directorScheme (cfg : option Config.t) (scheme : string) : string :=
  if String.eqb scheme "https" || String.eqb scheme "http" then scheme
  else if String.eqb scheme "ws" then "http"
  else if String.eqb scheme "grpc" || String.eqb scheme "h2c" then "http"
  else if String.eqb scheme "wss" then "https"
  else if declaresClientCertificate cfg then "https" else "http".

Definition topologyHeaders : list string :=
  ["Forwarded"; "X-Forwarded-For"; "X-Forwarded-Host"; "X-Forwarded-Proto"].

(** Lines 94-121: the dial target. The wire scheme, the [Host] header
    value, the dial host, the sanitized query, the cleared request URI. *)
Definition directorTarget (cfg : option Config.t) (upstream : Upstream.t)
  (outReq : Request.t) : Request.t :=
  let outReq := Request.setURLScheme outReq
                  (directorScheme cfg (URL.Scheme (Upstream.URL upstream))) in
  let outReq := Request.setHost outReq (URL.Host (Upstream.URL upstream)) in
  let outReq := if Upstream.IsUser upstream
                then Request.setURLHost outReq (Upstream.HostPort upstream)
                else Request.setURLHost outReq (URL.Host (Upstream.URL upstream)) in
  let outReq := Request.setURLRawQuery outReq
                  (strings.ReplaceAllByte (URL.RawQuery (Request.URL outReq)) ";" "&") in
  Request.setRequestURI outReq "".

(** Lines 123-125. *)
Definition directorUserAgent (outReq : Request.t) : Request.t :=
  if negb (HeaderOps.has (Request.Header outReq) "User-Agent")
  then Request.setHeader outReq
         (HeaderOps.Set_ (Request.Header outReq) "User-Agent" "octelium")
  else outReq.

(** Lines 130-138. *)
Definition directorProto (svc : Service) (outReq : Request.t) : Request.t :=
  if isHTTP2RequestUpstream outReq svc
  then Request.setProto outReq "HTTP/2" 2 0
  else Request.setProto outReq "HTTP/1.1" 1 1.

(** Lines 140-145. *)
Definition directorStripTopology (isManagedSvc : bool) (outReq : Request.t) : Request.t :=
  if negb isManagedSvc
  then
    let h := Request.Header outReq in
    let h := HeaderOps.Del h "Forwarded" in
    let h := HeaderOps.Del h "X-Forwarded-For" in
    let h := HeaderOps.Del h "X-Forwarded-Host" in
    let h := HeaderOps.Del h "X-Forwarded-Proto" in
    Request.setHeader outReq h
  else outReq.

(** Lines 147-149. *)
Definition directorOrigin (upstream : Upstream.t) (outReq : Request.t) : Request.t :=
  if negb (String.eqb (HeaderOps.Get (Request.Header outReq) "Origin") "")
  then Request.setHeader outReq
         (HeaderOps.Set_ (Request.Header outReq) "Origin"
            (URLString (Upstream.URL upstream)))
  else outReq.

(** Lines 92-149: everything the Director does before the signing block,
    statement after statement. *)
Definition directorRewrite (reqCtx : RequestContext) (upstream : Upstream.t)
  (outReq : Request.t) : Request.t :=
  let svc := ctxService reqCtx in
  let cfg := ServiceConfig reqCtx in
  let isManagedSvc := IsManagedService (ctxService reqCtx) in
  let outReq := directorTarget cfg upstream outReq in
  let outReq := directorUserAgent outReq in
  let outReq := fixWebSocketHeaders outReq in
  let outReq := directorProto svc outReq in
  let outReq := directorStripTopology isManagedSvc outReq in
  directorOrigin upstream outReq.

Definition warnSignHTTP : string := "Could not signHTTP for sigv4".
Definition warnGetSecret : string := "Could not get sigv4 Secret".

(** Lines 151-175: the signing block. The result is the request as the
    Director leaves it and the warnings logged. The [return] after the
    [SignHTTP] warning is the last statement the closure could run anyway:
    a Director has no result, so either way it simply returns to
    [ReverseProxy.ServeHTTP]. *)
Definition directorSign (reqCtx : RequestContext) (outReq : Request.t)
  : Request.t * list string :=
  match Config.GetSigv4 (ServiceConfig reqCtx) with
  | Some sigv4Opts =>
      match GetByName (Sigv4.FromSecret sigv4Opts) with
      | Ok secret =>
          let '(outReq, err) :=
            SignHTTP (aws.mkCredentials (Sigv4.AccessKeyID sigv4Opts) secret)
              outReq (sha256Hex (Body reqCtx))
              (Sigv4.Service sigv4Opts) (Sigv4.Region sigv4Opts) in
          match err with
          | Some _ => (outReq, [warnSignHTTP])
          | None => (outReq, [])
          end
      | Err _ => (outReq, [warnGetSecret])
      end
  | None => (outReq, [])
  end.

Definition Director (reqCtx : RequestContext) (upstream : Upstream.t)
  (outReq : Request.t) : Request.t * list string :=
  directorSign reqCtx (directorRewrite reqCtx upstream outReq).

(** *** The ModifyResponse and ErrorHandler closures *)

Definition ModifyResponse (r : Response.t) : Response.t :=
  Response.mk (Response.StatusCode r)
    (HeaderOps.Set_ (Response.Header r) "Server" "octelium") (Response.Body r).

(** The [switch] of the ErrorHandler. *)
Definition errorStatusCode (err : GoError) : Z :=
  if errors.Is err io_EOF then http.StatusBadGateway
  else if errors.Is err context_Canceled then 499
  else match errors.AsNetError err with
       | Some true => http.StatusGatewayTimeout
       | Some false => http.StatusBadGateway
       | None => http.StatusInternalServerError
       end.

Definition ErrorHandler (w : ResponseWriter.t) (request : Request.t) (err : GoError)
  : ResponseWriter.t :=
  let statusCode := errorStatusCode err in
  let w := ResponseWriter.WriteHeader w statusCode in
  ResponseWriter.Write w (http.StatusText statusCode).

(** *** [httputil.ReverseProxy] and [getProxy] *)

(** One served exchange: the requests handed to the transport, the warnings
    logged, and the response writer as the handler leaves it. *)
Record Exchange : Type := mkExchange {
  dispatched : list Request.t;
  warnings : list string;
  written : ResponseWriter.t
}.

(** [copyHeader(rw.Header(), res.Header)], then the status and the body. *)
Definition copyResponse (rw : ResponseWriter.t) (res : Response.t) : ResponseWriter.t :=
  let rw := ResponseWriter.mk
              (union_with (fun old new : list string => Some (old ++ new)%list)
                 (ResponseWriter.header rw) (Response.Header res))
              (ResponseWriter.wroteHeader rw) (ResponseWriter.status rw)
              (ResponseWriter.sentHeader rw) (ResponseWriter.body rw) in
  let rw := ResponseWriter.WriteHeader rw (Response.StatusCode res) in
  ResponseWriter.Write rw (Response.Body res).

(** [ReverseProxy.ServeHTTP] with the closures of [getProxy], on its path
    from the Director to the round trip: the Director is called on the clone
    of the inbound request and has no result to report, so whatever it did
    the outbound request, after the proxy's own hop-by-hop processing, goes
    to [Transport.RoundTrip]; a transport error goes to the ErrorHandler, a
    response through ModifyResponse to the caller. *)
Definition ReverseProxy_ServeHTTP (reqCtx : RequestContext) (upstream : Upstream.t)
  (roundTripper : Request.t -> result Response.t)
  (rw : ResponseWriter.t) (req : Request.t) : Exchange :=
  let '(outreq, logged) := Director reqCtx upstream req in
  let outreq := proxyPrepare outreq in
  match roundTripper outreq with
  | Ok res => mkExchange [outreq] logged (copyResponse rw (ModifyResponse res))
  | Err err => mkExchange [outreq] logged (ErrorHandler rw outreq err)
  end.

Inductive Handler : Type :=
| directResponseHandler (direct : Direct.t)
| reverseProxy (upstream : Upstream.t) (roundTripper : Request.t -> result Response.t).

Definition getProxy (reqCtx : RequestContext) : result Handler :=
  match Config.GetDirect (ServiceConfig reqCtx) with
  | Some direct => Ok (directResponseHandler direct)
  | None =>
      match GetUpstream (ctxAuthResponse reqCtx) with
      | Err err => Err err
      | Ok upstream =>
          match getRoundTripper upstream with
          | Err err => Err err
          | Ok roundTripper => Ok (reverseProxy upstream roundTripper)
          end
      end
  end.


End httpg.

(** ** The signer's footprint *)

(** The header keys a SigV4 header signature writes. *)
Definition signerKeys : list string :=
  ["Authorization"; "X-Amz-Date"; "X-Amz-Security-Token"].

(** The signer, failing or not, leaves every other header and the URL
    scheme of the request as they were. *)
Definition SignerFrame `{Collaborators} : Prop :=
  forall creds r payloadHash service region,
    let r' := (SignHTTP creds r payloadHash service region).1 in
    URL.Scheme (Request.URL r') = URL.Scheme (Request.URL r) /\
    forall k, k ∉ signerKeys -> Request.Header r' !! k = Request.Header r !! k.

(** ** A concrete deployment, for running the model *)

Module Demo.

Definition upstreamWith (scheme : string) : Upstream.t :=
  Upstream.mk (URL.mk scheme "api.internal:8443" "" "") "10.0.0.7:8443" false.

Definition upstream : Upstream.t := upstreamWith "https".

(** A signer that fails on an empty secret key (after stamping the date)
    and otherwise adds the date and the authorization header. *)
Definition signHTTP (creds : aws.Credentials) (r : Request.t)
  (payloadHash service region : string) : Request.t * option GoError :=
  let dated := Request.setHeader r
                 (HeaderOps.Set_ (Request.Header r) "X-Amz-Date" "20260101T000000Z") in
  if String.eqb (aws.SecretAccessKey creds) ""
  then (dated, Some (errorString "empty secret access key"))
  else (Request.setHeader dated
          (HeaderOps.Set_ (Request.Header dated) "Authorization"
             ("AWS4-HMAC-SHA256 Credential=" ++ aws.AccessKeyID creds ++ "/" ++ region
                ++ "/" ++ service ++ ", Signature=" ++ payloadHash)),
        None).

Definition getByName (name : string) : result string :=
  if String.eqb name "missing" then Err (errorString "secret not found")
  else if String.eqb name "blank" then Ok ""
  else Ok "s3cr3t".

Definition roundTrip (r : Request.t) : result Response.t :=
  Ok (Response.mk 200 ∅ "pong").

(** The Service is reduced to its managed flag. *)
Definition collaborators : Collaborators := {|
  Service := bool;
  AuthResponse := unit;
  IsManagedService := fun svc => svc;
  isHTTP2RequestUpstream := fun _ _ => false;
  GetUpstream := fun _ => Ok upstream;
  getRoundTripper := fun _ => Ok roundTrip;
  GetByName := getByName;
  sha256Hex := fun _ => "e3b0c44298fc1c149afbf4c8996fb92427ae41e4649b934ca495991b7852b855";
  SignHTTP := signHTTP;
  URLString := fun u => URL.Scheme u ++ "://" ++ URL.Host u ++ URL.Path u;
  EqualFold := strings.asciiEqualFold;
  proxyPrepare := fun r => r
|}.

Definition sigv4 (secretName : string) : Sigv4.t :=
  Sigv4.mk "AKIDEXAMPLE" secretName "s3" "us-east-1".

Definition mtlsConfig : Config.t :=
  Config.mk None (Some (Config.mkTLS (Some (Config.mkClientCertificate "client-cert")))) None.

Definition signingConfig (secretName : string) : Config.t :=
  Config.mk None None (Some (Config.mkHTTP None (Some (sigv4 secretName)))).

Definition reqCtx (managed : bool) (cfg : option Config.t)
  : @RequestContext collaborators :=
  @mkRequestContext collaborators managed cfg tt "".

Definition request (h : gmap string (list string)) : Request.t :=
  Request.mk "GET" (URL.mk "" "" "/v1/items" "a=1;b=2") "gw.example.com"
    "/v1/items?a=1;b=2" h "HTTP/1.1" 1 1.

(** A websocket handshake as the gateway's server parses it. *)
Definition handshake : gmap string (list string) :=
  {[ "Connection" := ["keep-alive, Upgrade"];
     "Upgrade" := ["WebSocket"];
     "Sec-Websocket-Key" := ["dGhlIHNhbXBsZSBub25jZQ=="];
     "Sec-Websocket-Version" := ["13"] ]}.

End Demo.


(** ** Key sets used in the statements *)

(** The keys written or deleted by [fixWebSocketHeaders]. *)
Definition wsKeys : list string :=
  map fst wsHeaderPairs ++ map snd wsHeaderPairs.

(** Every key the Director rewrite may touch. *)
Definition rewrittenKeys : list string :=
  "User-Agent" :: "Origin" :: topologyHeaders ++ wsKeys.


(** ** The client commands that delete a resource

    [octeliumctl delete namespace] and [octelium auth delete authenticator]:
    each [doCmd] is a chain of calls where the first error is returned. A
    run is the calls made to the outside, in order, and the result. *)

From Stdlib Require DecimalString.

Module cli.

Inductive Event : Type :=
| DialGRPC (domain : string)              (* client.GetGRPCClientConn *)
| DialAuth (domain : string)              (* cliutils.NewAuthClient *)
| RPCDeleteNamespace (name : string)      (* c.DeleteNamespace *)
| RPCDeleteAuthenticator (name : string)  (* c.C().DeleteAuthenticator *)
| ConnClose                               (* conn.Close() *)
| LineInfo (format arg : string).         (* cliutils.LineInfo *)

(** What the commands consume from [cliutils], [client] and the API. *)
Class World : Type := {
  CLIInfo : Type;
  Domain : CLIInfo -> string;
  FirstArg : CLIInfo -> string;
  GetCLIInfo : list string -> result CLIInfo;
  Conn : Type;
  GetGRPCClientConn : string -> result Conn;
  DeleteNamespace : Conn -> string -> option GoError;
  AuthClient : Type;
  NewAuthClient : string -> result AuthClient;
  DeleteAuthenticator : AuthClient -> string -> option GoError
}.

Definition Run (A : Type) : Type := (list Event * result A)%type.

Definition ret {A : Type} (a : A) : Run A := ([], Ok a).

Definition bind {A B : Type} (m : Run A) (k : A -> Run B) : Run B :=
  match m with
  | (tr, Ok a) => let '(tr', b) := k a in ((tr ++ tr')%list, b)
  | (tr, Err e) => (tr, Err e)
  end.

(** A call that reaches the outside, and one that does not. *)
Definition call {A : Type} (ev : Event) (res : result A) : Run A := ([ev], res).
Definition quiet {A : Type} (res : result A) : Run A := ([], res).

(** [defer f()] around the rest of the function body. *)
Definition defer {A : Type} (ev : Event) (body : Run A) : Run A :=
  ((body.1 ++ [ev])%list, body.2).

(** A returned [error] as a result. *)
Definition check (err : option GoError) : result unit :=
  match err with
  | Some e => Err e
  | None => Ok tt
  end.

Definition newline : string := String "010" EmptyString.

End cli.

Notation "'let*' x ':=' m 'in' k" := (cli.bind m (fun x => k))
  (at level 10, x name, m at level 100, k at level 200, only parsing).

Section commands.
Context `{cli.World}.

(** [namespace.doCmd] *)
Definition namespace_doCmd (args : list string) : cli.Run unit :=
  let* i := cli.quiet (cli.GetCLIInfo args) in
  let* conn := cli.call (cli.DialGRPC (cli.Domain i))
                 (cli.GetGRPCClientConn (cli.Domain i)) in
  cli.defer cli.ConnClose (
    let* done := cli.call (cli.RPCDeleteNamespace (cli.FirstArg i))
                   (cli.check (cli.DeleteNamespace conn (cli.FirstArg i))) in
    let* shown := cli.call
                    (cli.LineInfo ("Namespace `%s` successfully deleted" ++ cli.newline)
                       (cli.FirstArg i))
                    (Ok tt) in
    cli.ret tt).

(** [namespace.Cmd]: [Args: cobra.ExactArgs(1)] is checked before [RunE]. *)
Definition namespace_Cmd (args : list string) : cli.Run unit :=
  if Nat.eqb (length args) 1 then namespace_doCmd args
  else cli.quiet
         (Err (errorString
                 ("accepts 1 arg(s), received "
                    ++ DecimalString.NilEmpty.string_of_uint (Nat.to_uint (length args))))).

(** [authenticator.doCmd] *)
Definition authenticator_doCmd (args : list string) : cli.Run unit :=
  let* i := cli.quiet (cli.GetCLIInfo args) in
  let* c := cli.call (cli.DialAuth (cli.Domain i)) (cli.NewAuthClient (cli.Domain i)) in
  let* done := cli.call (cli.RPCDeleteAuthenticator (cli.FirstArg i))
                 (cli.check (cli.DeleteAuthenticator c (cli.FirstArg i))) in
  cli.ret tt.

End commands.

(** A command-line world where the domain is reachable and the API refuses
    to delete the namespace [default]. *)
Module DemoCLI.

Definition world : cli.World := {|
  cli.CLIInfo := list string;
  cli.Domain := fun _ => "example.com";
  cli.FirstArg := fun args => hd "" args;
  cli.GetCLIInfo := fun args => Ok args;
  cli.Conn := unit;
  cli.GetGRPCClientConn := fun _ => Ok tt;
  cli.DeleteNamespace := fun _ name =>
    if String.eqb name "default"
    then Some (errorString "cannot delete the default Namespace")
    else None;
  cli.AuthClient := unit;
  cli.NewAuthClient := fun _ => Ok tt;
  cli.DeleteAuthenticator := fun _ name =>
    if String.eqb name "" then Some (errorString "name is required") else None
|}.

End DemoCLI.

(** ** Relations used in the statements *)

(** Two requests with the same method, URL, [Host] and request URI. *)
Definition sameTarget (a b : Request.t) : Prop :=
  Request.Method a = Request.Method b /\
  Request.URL a = Request.URL b /\
  Request.Host a = Request.Host b /\
  Request.RequestURI a = Request.RequestURI b.

(** The protocol version fields of a request. *)
Definition protoOf (r : Request.t) : string * Z * Z :=
  (Request.Proto r, Request.ProtoMajor r, Request.ProtoMinor r).

(** [strings.ReplaceAll(s, ";", "&")] on one byte. *)
Definition sanitizeByte (c : ascii) : ascii :=
  if Ascii.eqb c ";" then "&"%char else c.

(** Further pieces of the concrete deployment: a route answered directly,
    a transport that gives up, an upstream that names its server. *)
Module DemoRoutes.

Definition maintenance : Direct.t :=
  Direct.mk (Some (Direct.InlineBytes "down for maintenance")) "text/plain" 503.


Definition canceledTrip (r : Request.t) : result Response.t :=
  Err (wrapError "round trip" context_Canceled).

Definition nginxTrip (r : Request.t) : result Response.t :=
  Ok (Response.mk 204 {[ "Server" := ["nginx/1.25"] ]} "").

End DemoRoutes.

(** * Properties *)

(** Membership of a literal key in a literal list, by evaluation. *)
Ltac literal_notin :=
  apply (proj1 (bool_decide_eq_false _)); vm_compute; reflexivity.

Ltac key_ne :=
  let E := fresh in intros E; first [ discriminate E | symmetry in E; contradiction | contradiction ].

Ltac split_notin H :=
  repeat (rewrite not_elem_of_cons in H;
          let Hne := fresh "Hne" in destruct H as [Hne H]).

Section Properties.
Context `{Collaborators}.

Lemma directorTarget_Header cfg upstream r :
  Request.Header (directorTarget cfg upstream r) = Request.Header r.
Proof. unfold directorTarget. destruct (Upstream.IsUser upstream); reflexivity. Qed.

Lemma directorTarget_Scheme cfg upstream r :
  URL.Scheme (Request.URL (directorTarget cfg upstream r))
  = directorScheme cfg (URL.Scheme (Upstream.URL upstream)).
Proof. unfold directorTarget. destruct (Upstream.IsUser upstream); reflexivity. Qed.

Lemma directorUserAgent_URL r :
  Request.URL (directorUserAgent r) = Request.URL r.
Proof. unfold directorUserAgent. destruct (negb _); reflexivity. Qed.

Lemma directorUserAgent_absent r :
  Request.Header r !! "User-Agent" = None ->
  Request.Header (directorUserAgent r) !! "User-Agent" = Some ["octelium"].
Proof.
  intros Hnone. unfold directorUserAgent, HeaderOps.has.
  rewrite Hnone, bool_decide_eq_false_2 by (intros [? ?]; discriminate).
  cbn. unfold HeaderOps.Set_. apply lookup_insert_eq.
Qed.

Lemma directorUserAgent_present r vs :
  Request.Header r !! "User-Agent" = Some vs ->
  directorUserAgent r = r.
Proof.
  intros Hsome. unfold directorUserAgent, HeaderOps.has.
  rewrite Hsome, bool_decide_eq_true_2 by eauto. reflexivity.
Qed.

Lemma directorUserAgent_other r k :
  k <> "User-Agent" ->
  Request.Header (directorUserAgent r) !! k = Request.Header r !! k.
Proof.
  intros Hne. unfold directorUserAgent. destruct (negb _); [|reflexivity].
  cbn. unfold HeaderOps.Set_. by rewrite lookup_insert_ne.
Qed.

Lemma fixWebSocketHeaders_URL r :
  Request.URL (fixWebSocketHeaders r) = Request.URL r.
Proof. unfold fixWebSocketHeaders. destruct (negb _); reflexivity. Qed.

Lemma fixWebSocketHeaders_other r k :
  k ∉ wsKeys ->
  Request.Header (fixWebSocketHeaders r) !! k = Request.Header r !! k.
Proof.
  intros Hk. unfold fixWebSocketHeaders. destruct (negb _); [reflexivity|].
  cbn in Hk. split_notin Hk.
  cbn. unfold HeaderOps.assign.
  rewrite !lookup_delete_ne, !lookup_insert_ne by key_ne. reflexivity.
Qed.

Lemma directorProto_Header svc r :
  Request.Header (directorProto svc r) = Request.Header r.
Proof. unfold directorProto. destruct (isHTTP2RequestUpstream r svc); reflexivity. Qed.

Lemma directorProto_URL svc r :
  Request.URL (directorProto svc r) = Request.URL r.
Proof. unfold directorProto. destruct (isHTTP2RequestUpstream r svc); reflexivity. Qed.

Lemma directorStripTopology_URL m r :
  Request.URL (directorStripTopology m r) = Request.URL r.
Proof. destruct m; reflexivity. Qed.

Lemma directorStripTopology_managed r :
  directorStripTopology true r = r.
Proof. reflexivity. Qed.

Lemma directorStripTopology_stripped r k :
  k ∈ topologyHeaders ->
  Request.Header (directorStripTopology false r) !! k = None.
Proof.
  intros Hk. unfold directorStripTopology, HeaderOps.Del. cbn.
  unfold topologyHeaders in Hk. rewrite !elem_of_cons in Hk.
  destruct Hk as [->|[->|[->|[->|Hk]]]]; [..|by apply elem_of_nil in Hk];
    rewrite ?lookup_delete_eq;
    repeat (first [ done | rewrite lookup_delete_eq | rewrite lookup_delete_ne by discriminate ]).
Qed.

Lemma directorStripTopology_other m r k :
  k ∉ topologyHeaders ->
  Request.Header (directorStripTopology m r) !! k = Request.Header r !! k.
Proof.
  intros Hk. destruct m; [reflexivity|].
  unfold topologyHeaders in Hk. split_notin Hk.
  unfold directorStripTopology, HeaderOps.Del. cbn.
  rewrite !lookup_delete_ne by key_ne. reflexivity.
Qed.

Lemma directorOrigin_URL upstream r :
  Request.URL (directorOrigin upstream r) = Request.URL r.
Proof. unfold directorOrigin. destruct (negb _); reflexivity. Qed.

Lemma directorOrigin_other upstream r k :
  k <> "Origin" ->
  Request.Header (directorOrigin upstream r) !! k = Request.Header r !! k.
Proof.
  intros Hne. unfold directorOrigin. destruct (negb _); [|reflexivity].
  cbn. unfold HeaderOps.Set_. by rewrite lookup_insert_ne.
Qed.

Lemma directorOrigin_rewritten upstream r :
  HeaderOps.Get (Request.Header r) "Origin" <> "" ->
  Request.Header (directorOrigin upstream r) !! "Origin"
  = Some [URLString (Upstream.URL upstream)].
Proof.
  intros Hne. unfold directorOrigin.
  destruct (String.eqb_spec (HeaderOps.Get (Request.Header r) "Origin") ""); [done|].
  cbn. unfold HeaderOps.Set_. apply lookup_insert_eq.
Qed.

Lemma directorOrigin_kept upstream r :
  HeaderOps.Get (Request.Header r) "Origin" = "" ->
  directorOrigin upstream r = r.
Proof. intros Heq. unfold directorOrigin. rewrite Heq. reflexivity. Qed.

Lemma directorRewrite_Scheme reqCtx upstream r :
  URL.Scheme (Request.URL (directorRewrite reqCtx upstream r))
  = directorScheme (ServiceConfig reqCtx) (URL.Scheme (Upstream.URL upstream)).
Proof.
  unfold directorRewrite; cbv zeta.
  rewrite directorOrigin_URL, directorStripTopology_URL, directorProto_URL,
    fixWebSocketHeaders_URL, directorUserAgent_URL.
  apply directorTarget_Scheme.
Qed.

Lemma directorRewrite_other reqCtx upstream r k :
  k ∉ rewrittenKeys ->
  Request.Header (directorRewrite reqCtx upstream r) !! k = Request.Header r !! k.
Proof.
  intros Hk. unfold rewrittenKeys in Hk.
  rewrite !not_elem_of_cons, not_elem_of_app in Hk.
  destruct Hk as (Hua & Horigin & Htopo & Hws).
  unfold directorRewrite; cbv zeta.
  rewrite directorOrigin_other, directorStripTopology_other, directorProto_Header,
    fixWebSocketHeaders_other, directorUserAgent_other, directorTarget_Header by assumption.
  reflexivity.
Qed.

(** The signing block leaves alone whatever the signer leaves alone. *)
Lemma directorSign_frame reqCtx r :
  SignerFrame ->
  URL.Scheme (Request.URL (directorSign reqCtx r).1) = URL.Scheme (Request.URL r) /\
  forall k, k ∉ signerKeys ->
    Request.Header (directorSign reqCtx r).1 !! k = Request.Header r !! k.
Proof.
  intros Hframe. unfold directorSign.
  destruct (Config.GetSigv4 _) as [opts|]; [|by split].
  destruct (GetByName _) as [secret|e]; [|by split].
  match goal with
  | |- context [SignHTTP ?c ?q ?h ?s ?g] =>
      specialize (Hframe c q h s g); destruct (SignHTTP c q h s g) as [r' [e|]]
  end; exact Hframe.
Qed.

(** C4. For every upstream, the scheme of the outbound request after the
    Director is: https for https, http for http, http for ws, https for wss,
    http for grpc and for h2c; for any other upstream scheme it is https
    exactly when the route config declares a client certificate (on the
    config itself or in its TLS block), and http otherwise. *)
Theorem director_wire_scheme reqCtx upstream r :
  SignerFrame ->
  let scheme := URL.Scheme (Upstream.URL upstream) in
  let out := URL.Scheme (Request.URL (Director reqCtx upstream r).1) in
  (scheme = "https" -> out = "https") /\
  (scheme = "http" -> out = "http") /\
  (scheme = "ws" -> out = "http") /\
  (scheme = "wss" -> out = "https") /\
  (scheme = "grpc" -> out = "http") /\
  (scheme = "h2c" -> out = "http") /\
  (scheme ∉ ["https"; "http"; "ws"; "wss"; "grpc"; "h2c"] ->
     (out = "https" <-> declaresClientCertificate (ServiceConfig reqCtx) = true) /\
     (declaresClientCertificate (ServiceConfig reqCtx) = false -> out = "http")).
Proof.
  intros Hframe scheme out.
  assert (Hout : out = directorScheme (ServiceConfig reqCtx) scheme).
  { subst out scheme. unfold Director.
    destruct (directorSign_frame reqCtx (directorRewrite reqCtx upstream r) Hframe) as [-> _].
    apply directorRewrite_Scheme. }
  rewrite Hout. clear Hout out. clearbody scheme.
  do 6 (split; [intros ->; reflexivity|]).
  intros Hnot.
  assert (Hdefault : directorScheme (ServiceConfig reqCtx) scheme
                     = if declaresClientCertificate (ServiceConfig reqCtx)
                       then "https" else "http").
  { unfold directorScheme. split_notin Hnot.
    repeat match goal with
    | Hne : scheme ≠ ?lit |- _ =>
        apply String.eqb_neq in Hne; rewrite Hne; clear Hne
    end.
    reflexivity. }
  rewrite Hdefault.
  destruct (declaresClientCertificate (ServiceConfig reqCtx)); repeat split; congruence.
Qed.

(** C3. When the target Service is not a managed service, the request the
    Director leaves has none of Forwarded, X-Forwarded-For, X-Forwarded-Host
    and X-Forwarded-Proto; when it is a managed service, each of the four is
    exactly as on the inbound request. *)
Theorem director_topology_headers reqCtx upstream r k :
  SignerFrame ->
  k ∈ topologyHeaders ->
  let out := Request.Header (Director reqCtx upstream r).1 in
  (IsManagedService (ctxService reqCtx) = false -> out !! k = None) /\
  (IsManagedService (ctxService reqCtx) = true -> out !! k = Request.Header r !! k).
Proof.
  intros Hframe Hk out. subst out. unfold Director.
  assert (Hsig : (k ∉ signerKeys) /\ k <> "Origin" /\ k <> "User-Agent" /\ (k ∉ wsKeys)).
  { unfold topologyHeaders in Hk. rewrite !elem_of_cons in Hk.
    destruct Hk as [->|[->|[->|[->|Hk]]]]; [..|by apply elem_of_nil in Hk];
      (split; [literal_notin|split; [discriminate|split; [discriminate|literal_notin]]]). }
  destruct Hsig as (Hsig & Horigin & Hua & Hws).
  destruct (directorSign_frame reqCtx (directorRewrite reqCtx upstream r) Hframe) as [_ ->];
    [|exact Hsig].
  unfold directorRewrite; cbv zeta.
  rewrite directorOrigin_other by exact Horigin.
  split; intros ->.
  - by apply directorStripTopology_stripped.
  - rewrite directorStripTopology_managed, directorProto_Header,
      fixWebSocketHeaders_other, directorUserAgent_other, directorTarget_Header
      by assumption.
    reflexivity.
Qed.

(** C7. When the inbound header map has no User-Agent key, the request the
    Director leaves carries User-Agent: octelium; when the key is there,
    whatever its values (a single empty string included), the entry is left
    as it was. *)
Theorem director_user_agent reqCtx upstream r :
  SignerFrame ->
  let out := Request.Header (Director reqCtx upstream r).1 in
  (Request.Header r !! "User-Agent" = None -> out !! "User-Agent" = Some ["octelium"]) /\
  (forall vs, Request.Header r !! "User-Agent" = Some vs -> out !! "User-Agent" = Some vs) /\
  (Request.Header r !! "User-Agent" = Some [""] -> out !! "User-Agent" = Some [""]).
Proof.
  intros Hframe out.
  assert (Hout : out !! "User-Agent"
                 = Request.Header
                     (directorUserAgent (directorTarget (ServiceConfig reqCtx) upstream r))
                     !! "User-Agent").
  { subst out. unfold Director.
    destruct (directorSign_frame reqCtx (directorRewrite reqCtx upstream r) Hframe) as [_ ->];
      [|literal_notin].
    unfold directorRewrite; cbv zeta.
    rewrite directorOrigin_other by discriminate.
    rewrite directorStripTopology_other by literal_notin.
    rewrite directorProto_Header.
    rewrite fixWebSocketHeaders_other by literal_notin.
    reflexivity. }
  rewrite Hout. clear Hout.
  assert (Hpresent : forall vs, Request.Header r !! "User-Agent" = Some vs ->
            Request.Header
              (directorUserAgent (directorTarget (ServiceConfig reqCtx) upstream r))
              !! "User-Agent" = Some vs).
  { intros vs Hvs.
    rewrite (directorUserAgent_present _ vs); by rewrite directorTarget_Header. }
  split; [|split].
  - intros Hnone. apply directorUserAgent_absent. by rewrite directorTarget_Header.
  - exact Hpresent.
  - apply Hpresent.
Qed.

(** C8, as the code has it. When the first value of the inbound Origin
    header is not the empty string, the request the Director leaves has
    Origin set to the single value the upstream URL prints as; otherwise
    (no Origin key, no value, or an empty first value) the Origin entry is
    as it was on the inbound request, so a request without an Origin header
    is left without one. *)
Theorem director_origin reqCtx upstream r :
  SignerFrame ->
  let out := Request.Header (Director reqCtx upstream r).1 in
  (HeaderOps.Get (Request.Header r) "Origin" <> "" ->
     out !! "Origin" = Some [URLString (Upstream.URL upstream)]) /\
  (HeaderOps.Get (Request.Header r) "Origin" = "" ->
     out !! "Origin" = Request.Header r !! "Origin") /\
  (Request.Header r !! "Origin" = None -> out !! "Origin" = None).
Proof.
  intros Hframe out.
  set (mid := directorStripTopology (IsManagedService (ctxService reqCtx))
                (directorProto (ctxService reqCtx)
                   (fixWebSocketHeaders
                      (directorUserAgent
                         (directorTarget (ServiceConfig reqCtx) upstream r))))).
  assert (Hmid : Request.Header mid !! "Origin" = Request.Header r !! "Origin").
  { subst mid.
    rewrite directorStripTopology_other by literal_notin.
    rewrite directorProto_Header.
    rewrite fixWebSocketHeaders_other by literal_notin.
    rewrite directorUserAgent_other by discriminate.
    by rewrite directorTarget_Header. }
  assert (Hget : HeaderOps.Get (Request.Header mid) "Origin"
                 = HeaderOps.Get (Request.Header r) "Origin").
  { unfold HeaderOps.Get, HeaderOps.index.
    change (textproto.CanonicalMIMEHeaderKey "Origin") with "Origin".
    by rewrite Hmid. }
  assert (Hout : out !! "Origin" = Request.Header (directorOrigin upstream mid) !! "Origin").
  { subst out. unfold Director.
    destruct (directorSign_frame reqCtx (directorRewrite reqCtx upstream r) Hframe) as [_ ->];
      [|literal_notin].
    reflexivity. }
  rewrite Hout. clear Hout.
  assert (Hkept : HeaderOps.Get (Request.Header r) "Origin" = "" ->
            Request.Header (directorOrigin upstream mid) !! "Origin"
            = Request.Header r !! "Origin").
  { intros Hempty. rewrite directorOrigin_kept by congruence. exact Hmid. }
  split; [|split].
  - intros Hne. apply directorOrigin_rewritten. congruence.
  - exact Hkept.
  - intros Hnone. rewrite Hkept; [exact Hnone|].
    unfold HeaderOps.Get, HeaderOps.index.
    change (textproto.CanonicalMIMEHeaderKey "Origin") with "Origin".
    by rewrite Hnone.
Qed.

Lemma fixWebSocketHeaders_upgrade r mixed canon :
  isWebSocketUpgrade r = true ->
  (mixed, canon) ∈ wsHeaderPairs ->
  Request.Header (fixWebSocketHeaders r) !! canon = None /\
  Request.Header (fixWebSocketHeaders r) !! mixed
  = Some (HeaderOps.index (Request.Header r) canon).
Proof.
  intros Hup Hpair. unfold fixWebSocketHeaders. rewrite Hup. cbn.
  unfold wsHeaderPairs in Hpair. rewrite !elem_of_cons in Hpair.
  unfold HeaderOps.assign, HeaderOps.index.
  destruct Hpair as [E|[E|[E|[E|[E|E]]]]];
    [injection E as -> -> ..|by apply elem_of_nil in E];
    (split;
     [ repeat (first [ apply lookup_delete_eq | rewrite lookup_delete_ne by discriminate ])
     | rewrite !lookup_delete_ne by discriminate;
       repeat (first [ rewrite lookup_insert_eq | rewrite lookup_insert_ne by discriminate ]);
       reflexivity ]).
Qed.

(** C6. The upgrade predicate holds exactly when some Connection value has
    the token Upgrade (ASCII case-insensitive) and the Upgrade header folds
    to websocket. On a request that satisfies it, for each of the five
    handshake headers the canonical-cased key is gone afterwards and the
    mixed-case key maps to the values the canonical-cased key had before; a
    request that does not satisfy it is returned as it was. *)
Theorem fixWebSocketHeaders_renames r :
  isWebSocketUpgrade r
  = httpguts.HeaderValuesContainsToken
      (HeaderOps.index (Request.Header r) "Connection") "Upgrade"
    && EqualFold (HeaderOps.Get (Request.Header r) "Upgrade") "websocket" /\
  (isWebSocketUpgrade r = true ->
   forall mixed canon, (mixed, canon) ∈ wsHeaderPairs ->
     Request.Header (fixWebSocketHeaders r) !! canon = None /\
     Request.Header (fixWebSocketHeaders r) !! mixed
     = Some (HeaderOps.index (Request.Header r) canon)) /\
  (isWebSocketUpgrade r = false -> fixWebSocketHeaders r = r).
Proof.
  split; [|split].
  - unfold isWebSocketUpgrade.
    by destruct (httpguts.HeaderValuesContainsToken _ _).
  - intros Hup mixed canon Hpair. by apply fixWebSocketHeaders_upgrade.
  - intros Hno. unfold fixWebSocketHeaders. by rewrite Hno.
Qed.

(** C10. On a request that satisfies the upgrade predicate, each of the five
    mixed-case keys is an entry of the header map afterwards, whether or not
    the canonical-cased key was there before (when it was not, the entry
    holds the nil list), and each of the five canonical-cased keys is gone. *)
Theorem fixWebSocketHeaders_creates_entries r mixed canon :
  isWebSocketUpgrade r = true ->
  (mixed, canon) ∈ wsHeaderPairs ->
  let out := Request.Header (fixWebSocketHeaders r) in
  is_Some (out !! mixed) /\
  (Request.Header r !! canon = None -> out !! mixed = Some []) /\
  out !! canon = None.
Proof.
  intros Hup Hpair out. subst out.
  destruct (fixWebSocketHeaders_upgrade r mixed canon Hup Hpair) as [Hcanon Hmixed].
  split; [|split].
  - rewrite Hmixed. eauto.
  - intros Hnone. rewrite Hmixed. unfold HeaderOps.index. by rewrite Hnone.
  - exact Hcanon.
Qed.

(** What the ErrorHandler writes on a writer nothing was written to. *)
Lemma ErrorHandler_written w request err :
  ResponseWriter.wroteHeader w = false ->
  ResponseWriter.status (ErrorHandler w request err) = errorStatusCode err /\
  ResponseWriter.body (ErrorHandler w request err)
  = (ResponseWriter.body w ++ http.StatusText (errorStatusCode err))%string.
Proof.
  intros Hfresh. unfold ErrorHandler, ResponseWriter.Write, ResponseWriter.WriteHeader.
  rewrite Hfresh. cbn. by split.
Qed.

Lemma errorStatusCode_range err :
  errorStatusCode err ∈ [499; 500; 502; 504].
Proof.
  unfold errorStatusCode.
  destruct (errors.Is err io_EOF); [set_solver|].
  destruct (errors.Is err context_Canceled); [set_solver|].
  destruct (errors.AsNetError err) as [[|]|]; set_solver.
Qed.

(** C5. The status the ErrorHandler commits: 502 for an error that is
    [io.EOF]; otherwise 499 for one that is [context.Canceled], also when it
    is a network error as well; otherwise 504 for a network error flagged as
    a timeout and 502 for one that is not; 500 for any other error. *)
Theorem error_classification request err :
  let code := ResponseWriter.status (ErrorHandler ResponseWriter.fresh request err) in
  (errors.Is err io_EOF = true -> code = 502) /\
  (errors.Is err io_EOF = false -> errors.Is err context_Canceled = true -> code = 499) /\
  (errors.Is err io_EOF = false -> errors.Is err context_Canceled = true ->
     is_Some (errors.AsNetError err) -> code = 499) /\
  (errors.Is err io_EOF = false -> errors.Is err context_Canceled = false ->
     errors.AsNetError err = Some true -> code = 504) /\
  (errors.Is err io_EOF = false -> errors.Is err context_Canceled = false ->
     errors.AsNetError err = Some false -> code = 502) /\
  (errors.Is err io_EOF = false -> errors.Is err context_Canceled = false ->
     errors.AsNetError err = None -> code = 500).
Proof.
  intros code. subst code.
  destruct (ErrorHandler_written ResponseWriter.fresh request err eq_refl) as [-> _].
  unfold errorStatusCode.
  repeat split; intros; repeat match goal with Heq : _ = _ |- _ => rewrite Heq; clear Heq end;
    reflexivity.
Qed.

(** C9. The body the ErrorHandler writes is the status text of the
    classified code: the empty string when that code is 499, and otherwise
    the reason phrase of 500, 502 or 504, none of which is empty. *)
Theorem error_body_text request err :
  let w := ErrorHandler ResponseWriter.fresh request err in
  (ResponseWriter.status w = 499 -> ResponseWriter.body w = "") /\
  (ResponseWriter.status w <> 499 ->
     ResponseWriter.body w <> "" /\
     (ResponseWriter.status w = 500 /\ ResponseWriter.body w = "Internal Server Error" \/
      ResponseWriter.status w = 502 /\ ResponseWriter.body w = "Bad Gateway" \/
      ResponseWriter.status w = 504 /\ ResponseWriter.body w = "Gateway Timeout")).
Proof.
  intros w. subst w.
  destruct (ErrorHandler_written ResponseWriter.fresh request err eq_refl) as [-> ->].
  pose proof (errorStatusCode_range err) as Hrange.
  rewrite !elem_of_cons in Hrange.
  destruct Hrange as [->|[->|[->|[->|Hnil]]]]; [..|by apply elem_of_nil in Hnil];
    (split; [intros ?|intros ?; split]); cbn; try done; auto.
Qed.

(** The served status of an inline direct response never depends on the
    configured status code: the body is written first. *)
Lemma directResponse_inline_status s contentType statusCode :
  let w := directResponseHandler_ServeHTTP
             (Direct.mk (Some (Direct.Inline s)) contentType statusCode)
             ResponseWriter.fresh in
  ResponseWriter.status w = 200 /\ ResponseWriter.body w = s /\
  ResponseWriter.sentHeader w = ∅.
Proof.
  cbn. unfold directResponseFinish. cbn.
  destruct (negb _); destruct (_ && _); cbn; repeat split; reflexivity.
Qed.

(** C2. Run on the configuration Inline hello, ContentType text/plain,
    StatusCode 201, the handler leaves the body hello committed under status
    200, not 201, and neither of its two headers in the committed map: the
    content type and the Server header are set on the handler's map, and 201
    is passed to WriteHeader, only after the write of the body has committed
    the response. *)
Theorem direct_response_created_is_served_ok :
  let w := directResponseHandler_ServeHTTP
             (Direct.mk (Some (Direct.Inline "hello")) "text/plain" 201)
             ResponseWriter.fresh in
  ResponseWriter.body w = "hello" /\
  ResponseWriter.status w = 200 /\
  ResponseWriter.status w <> 201 /\
  ResponseWriter.sentHeader w !! "Content-Type" = None /\
  ResponseWriter.sentHeader w !! "Server" = None /\
  ResponseWriter.header w !! "Content-Type" = Some ["text/plain"] /\
  ResponseWriter.header w !! "Server" = Some ["octelium"].
Proof. vm_compute. repeat split; discriminate. Qed.

(** C1, as the code has it. With a SigV4 block configured: when the secret
    fetch fails the Director logs the fetch warning and leaves the request
    as rewritten, unsigned; when the fetch succeeds and the signature
    computation fails the Director logs the signing warning and returns,
    leaving the request as the signer left it; in both cases the proxy
    hands exactly that one outbound request to the transport. *)
Theorem signing_failure_is_dispatched reqCtx upstream roundTripper rw r sigv4Opts :
  Config.GetSigv4 (ServiceConfig reqCtx) = Some sigv4Opts ->
  let unsigned := directorRewrite reqCtx upstream r in
  let served := ReverseProxy_ServeHTTP reqCtx upstream roundTripper rw r in
  (forall e, GetByName (Sigv4.FromSecret sigv4Opts) = Err e ->
     Director reqCtx upstream r = (unsigned, [warnGetSecret]) /\
     dispatched served = [proxyPrepare unsigned]) /\
  (forall secret left e,
     GetByName (Sigv4.FromSecret sigv4Opts) = Ok secret ->
     SignHTTP (aws.mkCredentials (Sigv4.AccessKeyID sigv4Opts) secret) unsigned
       (sha256Hex (Body reqCtx)) (Sigv4.Service sigv4Opts) (Sigv4.Region sigv4Opts)
     = (left, Some e) ->
     Director reqCtx upstream r = (left, [warnSignHTTP]) /\
     dispatched served = [proxyPrepare left]).
Proof.
  intros Hcfg unsigned served.
  assert (Hserved : dispatched served = [proxyPrepare (Director reqCtx upstream r).1]).
  { subst served. unfold ReverseProxy_ServeHTTP.
    destruct (Director reqCtx upstream r) as [outreq logged]. cbn.
    by destruct (roundTripper (proxyPrepare outreq)). }
  split.
  - intros e Hfetch.
    assert (Hdir : Director reqCtx upstream r = (unsigned, [warnGetSecret])).
    { unfold Director, directorSign. fold unsigned. by rewrite Hcfg, Hfetch. }
    split; [exact Hdir|]. by rewrite Hserved, Hdir.
  - intros secret left e Hfetch Hsign.
    assert (Hdir : Director reqCtx upstream r = (left, [warnSignHTTP])).
    { unfold Director, directorSign. fold unsigned. by rewrite Hcfg, Hfetch, Hsign. }
    split; [exact Hdir|]. by rewrite Hserved, Hdir.
Qed.

End Properties.

(** * The model run on the concrete deployment *)

Lemma Demo_signer_frame : @SignerFrame Demo.collaborators.
Proof.
  intros creds r payloadHash service region. cbn.
  unfold Demo.signHTTP, HeaderOps.Set_.
  change (textproto.CanonicalMIMEHeaderKey "X-Amz-Date") with "X-Amz-Date".
  change (textproto.CanonicalMIMEHeaderKey "Authorization") with "Authorization".
  destruct (String.eqb _ _); cbn; (split; [reflexivity|]);
    intros k Hk; unfold signerKeys in Hk; split_notin Hk;
    rewrite !lookup_insert_ne by key_ne; reflexivity.
Qed.

Example canonical_keys_fixed :
  map textproto.CanonicalMIMEHeaderKey
    ["User-Agent"; "Forwarded"; "X-Forwarded-For"; "X-Forwarded-Host";
     "X-Forwarded-Proto"; "Origin"; "Upgrade"; "Content-Type"; "Server"]
  = ["User-Agent"; "Forwarded"; "X-Forwarded-For"; "X-Forwarded-Host";
     "X-Forwarded-Proto"; "Origin"; "Upgrade"; "Content-Type"; "Server"].
Proof. reflexivity. Qed.

Example canonical_lowers_websocket :
  textproto.CanonicalMIMEHeaderKey "sec-webSocket-key" = "Sec-Websocket-Key".
Proof. reflexivity. Qed.

Example token_search :
  httpguts.HeaderValuesContainsToken ["keep-alive,  upgrade "] "Upgrade" = true
  /\ httpguts.HeaderValuesContainsToken ["keep-alive"; "close"] "Upgrade" = false.
Proof. split; reflexivity. Qed.

Example query_sanitized :
  URL.RawQuery (Request.URL
    (@Director Demo.collaborators (Demo.reqCtx false None) Demo.upstream
       (Demo.request ∅)).1) = "a=1&b=2".
Proof. reflexivity. Qed.

Lemma handshake_is_upgrade :
  @isWebSocketUpgrade Demo.collaborators (Demo.request Demo.handshake) = true.
Proof. vm_compute. reflexivity. Qed.

(** An unknown scheme under a TLS client certificate, wss, and grpc. *)
Lemma director_wire_scheme_witness :
("tcp" ∉ ["https"; "http"; "ws"; "wss"; "grpc"; "h2c"]) /\
  URL.Scheme (Request.URL
    (@Director Demo.collaborators (Demo.reqCtx false (Some Demo.mtlsConfig))
       (Demo.upstreamWith "tcp") (Demo.request ∅)).1) = "https" /\
  URL.Scheme (Request.URL
    (@Director Demo.collaborators (Demo.reqCtx false (Some Demo.mtlsConfig))
       (Demo.upstreamWith "wss") (Demo.request ∅)).1) = "https" /\
  URL.Scheme (Request.URL
    (@Director Demo.collaborators (Demo.reqCtx false None)
       (Demo.upstreamWith "grpc") (Demo.request ∅)).1) = "http".
Proof.
  assert (Hnot : "tcp" ∉ ["https"; "http"; "ws"; "wss"; "grpc"; "h2c"]) by literal_notin.
  split; [exact Hnot|]. split; [|split].
  - destruct (@director_wire_scheme Demo.collaborators
                (Demo.reqCtx false (Some Demo.mtlsConfig)) (Demo.upstreamWith "tcp")
                (Demo.request ∅) Demo_signer_frame) as (_ & _ & _ & _ & _ & _ & Hother).
    destruct (Hother Hnot) as [[_ Hhttps] _]. apply Hhttps. reflexivity.
  - destruct (@director_wire_scheme Demo.collaborators
                (Demo.reqCtx false (Some Demo.mtlsConfig)) (Demo.upstreamWith "wss")
                (Demo.request ∅) Demo_signer_frame) as (_ & _ & _ & Hwss & _).
    apply Hwss. reflexivity.
  - destruct (@director_wire_scheme Demo.collaborators
                (Demo.reqCtx false None) (Demo.upstreamWith "grpc")
                (Demo.request ∅) Demo_signer_frame) as (_ & _ & _ & _ & Hgrpc & _).
    apply Hgrpc. reflexivity.
Defined.

(** X-Forwarded-For towards an unmanaged and towards a managed service,
    with signing configured. *)
Lemma director_topology_headers_witness :
  "X-Forwarded-For" ∈ topologyHeaders /\
  Request.Header
    (@Director Demo.collaborators (Demo.reqCtx false (Some (Demo.signingConfig "aws-key")))
       Demo.upstream (Demo.request {[ "X-Forwarded-For" := ["203.0.113.9"] ]})).1
    !! "X-Forwarded-For" = None /\
  Request.Header
    (@Director Demo.collaborators (Demo.reqCtx true (Some (Demo.signingConfig "aws-key")))
       Demo.upstream (Demo.request {[ "X-Forwarded-For" := ["203.0.113.9"] ]})).1
    !! "X-Forwarded-For" = Some ["203.0.113.9"].
Proof.
  assert (Hin : "X-Forwarded-For" ∈ topologyHeaders) by (unfold topologyHeaders; set_solver).
  split; [exact Hin|]. split.
  - apply (proj1 (@director_topology_headers Demo.collaborators
             (Demo.reqCtx false (Some (Demo.signingConfig "aws-key"))) Demo.upstream
             (Demo.request {[ "X-Forwarded-For" := ["203.0.113.9"] ]})
             "X-Forwarded-For" Demo_signer_frame Hin)).
    reflexivity.
  - rewrite (proj2 (@director_topology_headers Demo.collaborators
             (Demo.reqCtx true (Some (Demo.signingConfig "aws-key"))) Demo.upstream
             (Demo.request {[ "X-Forwarded-For" := ["203.0.113.9"] ]})
             "X-Forwarded-For" Demo_signer_frame Hin) eq_refl).
    reflexivity.
Defined.

(** No User-Agent key, and a User-Agent key holding the empty string. *)
Lemma director_user_agent_witness :
  Request.Header
    (@Director Demo.collaborators (Demo.reqCtx false None) Demo.upstream
       (Demo.request ∅)).1 !! "User-Agent" = Some ["octelium"] /\
  Request.Header
    (@Director Demo.collaborators (Demo.reqCtx false None) Demo.upstream
       (Demo.request {[ "User-Agent" := [""] ]})).1 !! "User-Agent" = Some [""].
Proof.
  split.
  - destruct (@director_user_agent Demo.collaborators (Demo.reqCtx false None) Demo.upstream
                (Demo.request ∅) Demo_signer_frame) as (Habsent & _ & _).
    apply Habsent. reflexivity.
  - destruct (@director_user_agent Demo.collaborators (Demo.reqCtx false None) Demo.upstream
                (Demo.request {[ "User-Agent" := [""] ]}) Demo_signer_frame)
      as (_ & _ & Hempty).
    apply Hempty. reflexivity.
Defined.

(** An Origin header with a value, and no Origin header. *)
Lemma director_origin_witness :
  Request.Header
    (@Director Demo.collaborators (Demo.reqCtx false None) Demo.upstream
       (Demo.request {[ "Origin" := ["https://app.example.com"] ]})).1 !! "Origin"
  = Some ["https://api.internal:8443"] /\
  Request.Header
    (@Director Demo.collaborators (Demo.reqCtx false None) Demo.upstream
       (Demo.request ∅)).1 !! "Origin" = None.
Proof.
  split.
  - destruct (@director_origin Demo.collaborators (Demo.reqCtx false None) Demo.upstream
                (Demo.request {[ "Origin" := ["https://app.example.com"] ]})
                Demo_signer_frame) as (Hrewritten & _ & _).
    apply Hrewritten. vm_compute. discriminate.
  - destruct (@director_origin Demo.collaborators (Demo.reqCtx false None) Demo.upstream
                (Demo.request ∅) Demo_signer_frame) as (_ & _ & Habsent).
    apply Habsent. reflexivity.
Defined.

(** C8 as stated fails: an Origin header that is there with an empty value
    is not rewritten to the upstream URL. *)
Lemma origin_present_not_rewritten :
  ~ (forall (C : Collaborators) (reqCtx : @RequestContext C) upstream r,
       @SignerFrame C ->
       is_Some (Request.Header r !! "Origin") ->
       Request.Header (@Director C reqCtx upstream r).1 !! "Origin"
       = Some [@URLString C (Upstream.URL upstream)]).
Proof.
  intros Hclaim.
  specialize (Hclaim Demo.collaborators (Demo.reqCtx false None) Demo.upstream
                (Demo.request {[ "Origin" := [""] ]}) Demo_signer_frame).
  assert (Hpresent : is_Some (Request.Header (Demo.request {[ "Origin" := [""] ]}) !! "Origin"))
    by (exists [""]; reflexivity).
  specialize (Hclaim Hpresent). vm_compute in Hclaim. discriminate Hclaim.
Qed.

Example direct_response_out_of_range :
  let w := directResponseHandler_ServeHTTP
             (Direct.mk (Some (Direct.Inline "hello")) "" 999) ResponseWriter.fresh in
  ResponseWriter.status w = 200 /\ ResponseWriter.body w = "hello".
Proof. split; reflexivity. Qed.

Example direct_response_unset_type :
  let w := directResponseHandler_ServeHTTP (Direct.mk None "text/plain" 201)
             ResponseWriter.fresh in
  ResponseWriter.status w = 500 /\ ResponseWriter.body w = "" /\
  ResponseWriter.header w !! "Server" = None.
Proof. repeat split; reflexivity. Qed.

(** The handshake request, and a request that is not an upgrade. *)
Lemma fixWebSocketHeaders_renames_witness :
  @isWebSocketUpgrade Demo.collaborators (Demo.request Demo.handshake) = true /\
  ("Sec-WebSocket-Key", "Sec-Websocket-Key") ∈ wsHeaderPairs /\
  Request.Header (@fixWebSocketHeaders Demo.collaborators (Demo.request Demo.handshake))
    !! "Sec-Websocket-Key" = None /\
  Request.Header (@fixWebSocketHeaders Demo.collaborators (Demo.request Demo.handshake))
    !! "Sec-WebSocket-Key" = Some ["dGhlIHNhbXBsZSBub25jZQ=="] /\
  @fixWebSocketHeaders Demo.collaborators
    (Demo.request {[ "Sec-Websocket-Key" := ["dGhlIHNhbXBsZSBub25jZQ=="] ]})
  = Demo.request {[ "Sec-Websocket-Key" := ["dGhlIHNhbXBsZSBub25jZQ=="] ]}.
Proof.
  assert (Hin : ("Sec-WebSocket-Key", "Sec-Websocket-Key") ∈ wsHeaderPairs)
    by (unfold wsHeaderPairs; set_solver).
  split; [exact handshake_is_upgrade|]. split; [exact Hin|].
  destruct (@fixWebSocketHeaders_renames Demo.collaborators (Demo.request Demo.handshake))
    as (_ & Hupgrade & _).
  destruct (Hupgrade handshake_is_upgrade _ _ Hin) as [Hcanon Hmixed].
  split; [exact Hcanon|]. split; [exact Hmixed|].
  destruct (@fixWebSocketHeaders_renames Demo.collaborators
              (Demo.request {[ "Sec-Websocket-Key" := ["dGhlIHNhbXBsZSBub25jZQ=="] ]}))
    as (_ & _ & Hplain).
  apply Hplain. vm_compute. reflexivity.
Defined.

(** The handshake request carries no Sec-Websocket-Accept. *)
Lemma fixWebSocketHeaders_creates_entries_witness :
  @isWebSocketUpgrade Demo.collaborators (Demo.request Demo.handshake) = true /\
  ("Sec-WebSocket-Accept", "Sec-Websocket-Accept") ∈ wsHeaderPairs /\
  Request.Header (Demo.request Demo.handshake) !! "Sec-Websocket-Accept" = None /\
  Request.Header (@fixWebSocketHeaders Demo.collaborators (Demo.request Demo.handshake))
    !! "Sec-WebSocket-Accept" = Some [] /\
  Request.Header (@fixWebSocketHeaders Demo.collaborators (Demo.request Demo.handshake))
    !! "Sec-Websocket-Accept" = None.
Proof.
  assert (Hin : ("Sec-WebSocket-Accept", "Sec-Websocket-Accept") ∈ wsHeaderPairs)
    by (unfold wsHeaderPairs; set_solver).
  assert (Habsent : Request.Header (Demo.request Demo.handshake) !! "Sec-Websocket-Accept" = None)
    by reflexivity.
  split; [exact handshake_is_upgrade|]. split; [exact Hin|]. split; [exact Habsent|].
  destruct (@fixWebSocketHeaders_creates_entries Demo.collaborators (Demo.request Demo.handshake)
              _ _ handshake_is_upgrade Hin) as (_ & Hnil & Hgone).
  split; [exact (Hnil Habsent)|exact Hgone].
Defined.

(** One error per row of the classification. *)
Lemma error_classification_witness :
  ResponseWriter.status
    (ErrorHandler ResponseWriter.fresh (Demo.request ∅) (wrapError "read response" io_EOF))
  = 502 /\
  ResponseWriter.status
    (ErrorHandler ResponseWriter.fresh (Demo.request ∅) (netError true context_Canceled))
  = 499 /\
  ResponseWriter.status
    (ErrorHandler ResponseWriter.fresh (Demo.request ∅) context_DeadlineExceeded)
  = 504 /\
  ResponseWriter.status
    (ErrorHandler ResponseWriter.fresh (Demo.request ∅)
       (netError false (errorString "connection refused")))
  = 502 /\
  ResponseWriter.status
    (ErrorHandler ResponseWriter.fresh (Demo.request ∅) (errorString "tls: bad certificate"))
  = 500.
Proof.
  split; [|split; [|split; [|split]]].
  - destruct (error_classification (Demo.request ∅) (wrapError "read response" io_EOF))
      as (Heof & _).
    apply Heof. reflexivity.
  - destruct (error_classification (Demo.request ∅) (netError true context_Canceled))
      as (_ & _ & Hboth & _).
    apply Hboth; [reflexivity|reflexivity|by exists true].
  - destruct (error_classification (Demo.request ∅) context_DeadlineExceeded)
      as (_ & _ & _ & Htimeout & _).
    apply Htimeout; reflexivity.
  - destruct (error_classification (Demo.request ∅)
                (netError false (errorString "connection refused")))
      as (_ & _ & _ & _ & Hnet & _).
    apply Hnet; reflexivity.
  - destruct (error_classification (Demo.request ∅) (errorString "tls: bad certificate"))
      as (_ & _ & _ & _ & _ & Hother).
    apply Hother; reflexivity.
Defined.

(** A cancellation, and a deadline. *)
Lemma error_body_text_witness :
  ResponseWriter.body
    (ErrorHandler ResponseWriter.fresh (Demo.request ∅) context_Canceled) = "" /\
  ResponseWriter.body
    (ErrorHandler ResponseWriter.fresh (Demo.request ∅) context_DeadlineExceeded) <> "".
Proof.
  split.
  - destruct (error_body_text (Demo.request ∅) context_Canceled) as [Hcancel _].
    apply Hcancel. reflexivity.
  - destruct (error_body_text (Demo.request ∅) context_DeadlineExceeded) as [_ Hother].
    apply Hother. vm_compute. discriminate.
Defined.

(** A secret that cannot be fetched, and a secret the signer rejects. *)
Lemma signing_failure_is_dispatched_witness :
  dispatched
    (@ReverseProxy_ServeHTTP Demo.collaborators
       (Demo.reqCtx false (Some (Demo.signingConfig "missing"))) Demo.upstream
       Demo.roundTrip ResponseWriter.fresh (Demo.request ∅))
  = [@proxyPrepare Demo.collaborators
       (@directorRewrite Demo.collaborators
          (Demo.reqCtx false (Some (Demo.signingConfig "missing"))) Demo.upstream
          (Demo.request ∅))] /\
  dispatched
    (@ReverseProxy_ServeHTTP Demo.collaborators
       (Demo.reqCtx false (Some (Demo.signingConfig "blank"))) Demo.upstream
       Demo.roundTrip ResponseWriter.fresh (Demo.request ∅))
  = [@proxyPrepare Demo.collaborators
       (Demo.signHTTP (aws.mkCredentials "AKIDEXAMPLE" "")
          (@directorRewrite Demo.collaborators
             (Demo.reqCtx false (Some (Demo.signingConfig "blank"))) Demo.upstream
             (Demo.request ∅))
          "e3b0c44298fc1c149afbf4c8996fb92427ae41e4649b934ca495991b7852b855"
          "s3" "us-east-1").1].
Proof.
  split.
  - destruct (@signing_failure_is_dispatched Demo.collaborators
                (Demo.reqCtx false (Some (Demo.signingConfig "missing"))) Demo.upstream
                Demo.roundTrip ResponseWriter.fresh (Demo.request ∅) (Demo.sigv4 "missing")
                eq_refl) as [Hfetch _].
    pose proof (Hfetch (errorString "secret not found") eq_refl) as [_ Hd].
    exact Hd.
  - destruct (@signing_failure_is_dispatched Demo.collaborators
                (Demo.reqCtx false (Some (Demo.signingConfig "blank"))) Demo.upstream
                Demo.roundTrip ResponseWriter.fresh (Demo.request ∅) (Demo.sigv4 "blank")
                eq_refl) as [_ Hsign].
    pose proof (Hsign ""
            (Demo.signHTTP (aws.mkCredentials "AKIDEXAMPLE" "")
          (@directorRewrite Demo.collaborators
             (Demo.reqCtx false (Some (Demo.signingConfig "blank"))) Demo.upstream
             (Demo.request ∅))
          "e3b0c44298fc1c149afbf4c8996fb92427ae41e4649b934ca495991b7852b855"
          "s3" "us-east-1").1
       (errorString "empty secret access key") eq_refl eq_refl) as [_ Hd].
    exact Hd.
Defined.

(** C1 as stated fails: after a signature computation error the outbound
    request is still handed to the transport. *)
Lemma sign_error_still_dispatched :
  ~ (forall (C : Collaborators) (reqCtx : @RequestContext C) upstream roundTripper rw r
            sigv4Opts secret left e,
       Config.GetSigv4 (ServiceConfig reqCtx) = Some sigv4Opts ->
       GetByName (Sigv4.FromSecret sigv4Opts) = Ok secret ->
       SignHTTP (aws.mkCredentials (Sigv4.AccessKeyID sigv4Opts) secret)
         (directorRewrite reqCtx upstream r)
         (sha256Hex (Body reqCtx)) (Sigv4.Service sigv4Opts) (Sigv4.Region sigv4Opts)
       = (left, Some e) ->
       dispatched (ReverseProxy_ServeHTTP reqCtx upstream roundTripper rw r) = []).
Proof.
  intros Hclaim.
  specialize (Hclaim Demo.collaborators
                (Demo.reqCtx false (Some (Demo.signingConfig "blank"))) Demo.upstream
                Demo.roundTrip ResponseWriter.fresh (Demo.request ∅) (Demo.sigv4 "blank")
                "" _ (errorString "empty secret access key") eq_refl eq_refl eq_refl).
  vm_compute in Hclaim. discriminate Hclaim.
Qed.

(** * Further properties of the pipeline *)

Section DirectorProperties.
Context `{Collaborators}.

Lemma sameTarget_refl r : sameTarget r r.
Proof. by repeat split. Qed.

Lemma sameTarget_trans a b c : sameTarget a b -> sameTarget b c -> sameTarget a c.
Proof.
  intros (? & ? & ? & ?) (? & ? & ? & ?). repeat split; congruence.
Qed.

Lemma directorUserAgent_sameTarget r : sameTarget (directorUserAgent r) r.
Proof. unfold directorUserAgent. destruct (negb _); by repeat split. Qed.

Lemma fixWebSocketHeaders_sameTarget r : sameTarget (fixWebSocketHeaders r) r.
Proof. unfold fixWebSocketHeaders. destruct (negb _); by repeat split. Qed.

Lemma directorProto_sameTarget svc r : sameTarget (directorProto svc r) r.
Proof. unfold directorProto. destruct (isHTTP2RequestUpstream r svc); by repeat split. Qed.

Lemma directorStripTopology_sameTarget m r : sameTarget (directorStripTopology m r) r.
Proof. destruct m; by repeat split. Qed.

Lemma directorOrigin_sameTarget upstream r : sameTarget (directorOrigin upstream r) r.
Proof. unfold directorOrigin. destruct (negb _); by repeat split. Qed.

Lemma directorRewrite_sameTarget reqCtx upstream r :
  sameTarget (directorRewrite reqCtx upstream r)
    (directorTarget (ServiceConfig reqCtx) upstream r).
Proof.
  unfold directorRewrite; cbv zeta.
  eapply sameTarget_trans; [apply directorOrigin_sameTarget|].
  eapply sameTarget_trans; [apply directorStripTopology_sameTarget|].
  eapply sameTarget_trans; [apply directorProto_sameTarget|].
  eapply sameTarget_trans; [apply fixWebSocketHeaders_sameTarget|].
  apply directorUserAgent_sameTarget.
Qed.

Lemma directorStripTopology_protoOf m r : protoOf (directorStripTopology m r) = protoOf r.
Proof. by destruct m. Qed.

Lemma directorOrigin_protoOf upstream r : protoOf (directorOrigin upstream r) = protoOf r.
Proof. unfold directorOrigin. by destruct (negb _). Qed.

(** X1. After the rewrite the Host of the outbound request is the host of
    the upstream URL, the dial host is the upstream's HostPort for a
    user-supplied upstream and the host of its URL otherwise, the request
    URI is empty, and the method and the path are those of the inbound
    request. *)
Theorem director_dial_target reqCtx upstream r :
  let out := directorRewrite reqCtx upstream r in
  Request.Host out = URL.Host (Upstream.URL upstream) /\
  URL.Host (Request.URL out)
  = (if Upstream.IsUser upstream then Upstream.HostPort upstream
     else URL.Host (Upstream.URL upstream)) /\
  Request.RequestURI out = "" /\
  Request.Method out = Request.Method r /\
  URL.Path (Request.URL out) = URL.Path (Request.URL r).
Proof.
  intros out. subst out.
  destruct (directorRewrite_sameTarget reqCtx upstream r) as (-> & -> & -> & ->).
  unfold directorTarget. destruct (Upstream.IsUser upstream); by repeat split.
Qed.

Lemma ReplaceAllByte_get s old new n :
  String.get n (strings.ReplaceAllByte s old new)
  = (fun c => if Ascii.eqb c old then new else c) <$> String.get n s.
Proof.
  revert n. induction s as [|c s IH]; intros n; [reflexivity|].
  destruct n as [|n]; cbn; [reflexivity|apply IH].
Qed.

Lemma ReplaceAllByte_length s old new :
  String.length (strings.ReplaceAllByte s old new) = String.length s.
Proof. induction s as [|c s IH]; cbn; congruence. Qed.

Lemma ReplaceAllByte_idem s old new :
  old <> new ->
  strings.ReplaceAllByte (strings.ReplaceAllByte s old new) old new
  = strings.ReplaceAllByte s old new.
Proof.
  intros Hne. induction s as [|c s IH]; cbn; [reflexivity|]. rewrite IH. f_equal.
  destruct (Ascii.eqb_spec c old) as [->|Hc].
  - destruct (Ascii.eqb_spec new old); congruence.
  - destruct (Ascii.eqb_spec c old); congruence.
Qed.

Lemma directorRewrite_RawQuery reqCtx upstream r :
  URL.RawQuery (Request.URL (directorRewrite reqCtx upstream r))
  = strings.ReplaceAllByte (URL.RawQuery (Request.URL r)) ";" "&".
Proof.
  destruct (directorRewrite_sameTarget reqCtx upstream r) as (_ & -> & _).
  unfold directorTarget. by destruct (Upstream.IsUser upstream).
Qed.

(** X2. The raw query of the rewritten request is the inbound raw query with
    every semicolon turned into an ampersand and every other byte kept in
    place: the length is the same, no semicolon is left, and sanitizing it
    again changes nothing. *)
Theorem director_query_sanitized reqCtx upstream r :
  let q := URL.RawQuery (Request.URL r) in
  let q' := URL.RawQuery (Request.URL (directorRewrite reqCtx upstream r)) in
  String.length q' = String.length q /\
  (forall n, String.get n q' = sanitizeByte <$> String.get n q) /\
  (forall n, String.get n q' <> Some ";"%char) /\
  strings.ReplaceAllByte q' ";" "&" = q'.
Proof.
  intros q q'. subst q q'. rewrite directorRewrite_RawQuery.
  split; [apply ReplaceAllByte_length|].
  split; [intros n; apply ReplaceAllByte_get|].
  split; [|by apply ReplaceAllByte_idem].
  intros n. rewrite ReplaceAllByte_get.
  destruct (String.get n _) as [c|]; cbn; [|discriminate].
  destruct (Ascii.eqb_spec c ";"); congruence.
Qed.

(** X3. The protocol version of the rewritten request is HTTP/2 (2.0) when
    [isHTTP2RequestUpstream] holds of the request as it stands after the
    websocket repair, and HTTP/1.1 otherwise: it is one of the two, whatever
    version the inbound request carried. *)
Theorem director_protocol_version reqCtx upstream r :
  let seen := fixWebSocketHeaders
                (directorUserAgent (directorTarget (ServiceConfig reqCtx) upstream r)) in
  let out := directorRewrite reqCtx upstream r in
  protoOf out
  = (if isHTTP2RequestUpstream seen (ctxService reqCtx)
     then ("HTTP/2", 2, 0) else ("HTTP/1.1", 1, 1)) /\
  (protoOf out = ("HTTP/2", 2, 0) \/ protoOf out = ("HTTP/1.1", 1, 1)).
Proof.
  intros seen out.
  assert (Hout : protoOf out
                 = if isHTTP2RequestUpstream seen (ctxService reqCtx)
                   then ("HTTP/2", 2, 0) else ("HTTP/1.1", 1, 1)).
  { subst out. unfold directorRewrite; cbv zeta. fold seen.
    rewrite directorOrigin_protoOf, directorStripTopology_protoOf.
    unfold directorProto. by destruct (isHTTP2RequestUpstream seen _). }
  split; [exact Hout|]. rewrite Hout.
  destruct (isHTTP2RequestUpstream seen _); auto.
Qed.

(** X4. A header that is neither one the rewrite handles (User-Agent,
    Origin, the four topology headers, the ten websocket keys) nor one the
    signer writes is on the outbound request exactly as on the inbound one. *)
Theorem director_keeps_other_headers reqCtx upstream r k :
  SignerFrame ->
  k ∉ rewrittenKeys ->
  k ∉ signerKeys ->
  Request.Header (Director reqCtx upstream r).1 !! k = Request.Header r !! k.
Proof.
  intros Hframe Hrewrite Hsigner. unfold Director.
  destruct (directorSign_frame reqCtx (directorRewrite reqCtx upstream r) Hframe) as [_ ->];
    [|exact Hsigner].
  by apply directorRewrite_other.
Qed.

(** X5. The Director logs at most one warning: none when no signing block
    is configured (the request is then the rewritten one, untouched by any
    signer), the fetch warning exactly when the configured secret cannot be
    fetched, and the signing warning exactly when the fetch succeeds and the
    signer reports an error. *)
Theorem director_warnings reqCtx upstream r :
  let unsigned := directorRewrite reqCtx upstream r in
  let logged := (Director reqCtx upstream r).2 in
  (logged = [] \/ logged = [warnGetSecret] \/ logged = [warnSignHTTP]) /\
  (Config.GetSigv4 (ServiceConfig reqCtx) = None ->
     Director reqCtx upstream r = (unsigned, [])) /\
  (forall opts, Config.GetSigv4 (ServiceConfig reqCtx) = Some opts ->
     (logged = [warnGetSecret] <-> exists e, GetByName (Sigv4.FromSecret opts) = Err e) /\
     (logged = [warnSignHTTP] <->
        exists secret e,
          GetByName (Sigv4.FromSecret opts) = Ok secret /\
          (SignHTTP (aws.mkCredentials (Sigv4.AccessKeyID opts) secret) unsigned
             (sha256Hex (Body reqCtx)) (Sigv4.Service opts) (Sigv4.Region opts)).2
          = Some e)).
Proof.
  intros unsigned logged. subst logged. unfold Director, directorSign. fold unsigned.
  destruct (Config.GetSigv4 (ServiceConfig reqCtx)) as [opts|].
  - destruct (GetByName (Sigv4.FromSecret opts)) as [secret|e0] eqn:Hfetch.
    + destruct (SignHTTP _ unsigned _ _ _) as [left [e1|]] eqn:Hsign; cbn.
      * split; [auto|]. split; [discriminate|].
        intros opts' [= <-]. rewrite Hfetch. split.
        -- split; [discriminate|]. intros [e [=]].
        -- split; [|done]. intros _. exists secret, e1. by rewrite Hsign.
      * split; [auto|]. split; [discriminate|].
        intros opts' [= <-]. rewrite Hfetch. split.
        -- split; [discriminate|]. intros [e [=]].
        -- split; [discriminate|]. intros (secret' & e & [= <-] & Herr).
           rewrite Hsign in Herr. discriminate Herr.
    + cbn. split; [auto|]. split; [discriminate|].
      intros opts' [= <-]. rewrite Hfetch. split.
      * split; [eauto|done].
      * split; [discriminate|]. intros (secret & e & [=] & _).
  - cbn. split; [auto|]. split; [done|]. intros opts [=].
Qed.


End DirectorProperties.

Section WebSocketProperties.
Context `{Collaborators}.

Lemma isWebSocketUpgrade_ext r r' :
  Request.Header r !! "Connection" = Request.Header r' !! "Connection" ->
  Request.Header r !! "Upgrade" = Request.Header r' !! "Upgrade" ->
  isWebSocketUpgrade r = isWebSocketUpgrade r'.
Proof.
  intros Hconn Hup. unfold isWebSocketUpgrade, HeaderOps.Get, HeaderOps.index.
  change (textproto.CanonicalMIMEHeaderKey "Upgrade") with "Upgrade".
  by rewrite Hconn, Hup.
Qed.

Lemma wsHeaderPairs_keys mixed canon :
  (mixed, canon) ∈ wsHeaderPairs -> mixed ∈ wsKeys /\ canon ∈ wsKeys.
Proof.
  intros Hpair. unfold wsHeaderPairs in Hpair. rewrite !elem_of_cons in Hpair.
  destruct Hpair as [E|[E|[E|[E|[E|E]]]]];
    [injection E as -> -> ..|by apply elem_of_nil in E];
    split; apply (bool_decide_unpack _); vm_compute; exact I.
Qed.

(** X7. The websocket repair rewrites nothing but the ten handshake keys:
    every other header, the method, the URL, the Host, the request URI and
    the protocol version are as before. *)
Theorem fixWebSocketHeaders_frame r :
  sameTarget (fixWebSocketHeaders r) r /\
  protoOf (fixWebSocketHeaders r) = protoOf r /\
  (forall k, k ∉ wsKeys ->
     Request.Header (fixWebSocketHeaders r) !! k = Request.Header r !! k).
Proof.
  split; [apply fixWebSocketHeaders_sameTarget|]. split.
  - unfold fixWebSocketHeaders. by destruct (negb _).
  - intros k Hk. by apply fixWebSocketHeaders_other.
Qed.

(** X8. The repair is not idempotent on an upgrade request: the result
    still satisfies the upgrade predicate, so a second run, finding the
    canonical-cased keys gone, resets each of the five mixed-case entries to
    the nil list. *)
Theorem fixWebSocketHeaders_twice r mixed canon :
  isWebSocketUpgrade r = true ->
  (mixed, canon) ∈ wsHeaderPairs ->
  let once := fixWebSocketHeaders r in
  let twice := fixWebSocketHeaders once in
  isWebSocketUpgrade once = true /\
  Request.Header twice !! mixed = Some [] /\
  Request.Header twice !! canon = None.
Proof.
  intros Hup Hpair once twice.
  assert (Honce : isWebSocketUpgrade once = true).
  { rewrite <- Hup. subst once.
    apply isWebSocketUpgrade_ext; apply fixWebSocketHeaders_other; literal_notin. }
  split; [exact Honce|].
  destruct (fixWebSocketHeaders_upgrade r mixed canon Hup Hpair) as [Hgone _].
  destruct (fixWebSocketHeaders_upgrade once mixed canon Honce Hpair) as [Hcanon Hmixed].
  split; [|exact Hcanon].
  subst twice. rewrite Hmixed. unfold HeaderOps.index. subst once. by rewrite Hgone.
Qed.

(** X9. A request with no Connection value (the key missing, or mapped to
    no value) is not a websocket upgrade whatever its Upgrade header says,
    and the repair returns it as it is. *)
Theorem fixWebSocketHeaders_no_connection r :
  HeaderOps.index (Request.Header r) "Connection" = [] ->
  isWebSocketUpgrade r = false /\ fixWebSocketHeaders r = r.
Proof.
  intros Hconn.
  assert (Hno : isWebSocketUpgrade r = false).
  { unfold isWebSocketUpgrade. by rewrite Hconn. }
  split; [exact Hno|]. unfold fixWebSocketHeaders. by rewrite Hno.
Qed.

(** X10. Through the whole Director, on an inbound websocket upgrade: each
    of the five mixed-case keys of the outbound request holds the values the
    canonical-cased key had on the inbound request, and no canonical-cased
    key is left. *)
Theorem director_websocket_handshake reqCtx upstream r mixed canon :
  SignerFrame ->
  isWebSocketUpgrade r = true ->
  (mixed, canon) ∈ wsHeaderPairs ->
  let out := Request.Header (Director reqCtx upstream r).1 in
  out !! mixed = Some (HeaderOps.index (Request.Header r) canon) /\
  out !! canon = None.
Proof.
  intros Hframe Hup Hpair out.
  set (mid := directorUserAgent (directorTarget (ServiceConfig reqCtx) upstream r)).
  assert (Hmid : forall k, k <> "User-Agent" ->
            Request.Header mid !! k = Request.Header r !! k).
  { intros k Hk. subst mid. rewrite directorUserAgent_other by exact Hk.
    by rewrite directorTarget_Header. }
  assert (Hupmid : isWebSocketUpgrade mid = true).
  { rewrite <- Hup. apply isWebSocketUpgrade_ext; apply Hmid; discriminate. }
  assert (Hthrough : forall k, k ∈ wsKeys ->
            out !! k = Request.Header (fixWebSocketHeaders mid) !! k).
  { intros k Hk.
    assert (Hside : (k ∉ signerKeys) /\ k <> "Origin" /\ (k ∉ topologyHeaders)).
    { unfold wsKeys, wsHeaderPairs in Hk. cbn in Hk. rewrite !elem_of_cons in Hk.
      destruct Hk as [->|[->|[->|[->|[->|[->|[->|[->|[->|[->|Hk]]]]]]]]]];
        [..|by apply elem_of_nil in Hk];
        (split; [literal_notin|split; [discriminate|literal_notin]]). }
    destruct Hside as (Hsig & Horigin & Htopo).
    subst out. unfold Director.
    destruct (directorSign_frame reqCtx (directorRewrite reqCtx upstream r) Hframe)
      as [_ ->]; [|exact Hsig].
    unfold directorRewrite; cbv zeta. fold mid.
    rewrite directorOrigin_other by exact Horigin.
    rewrite directorStripTopology_other by exact Htopo.
    by rewrite directorProto_Header. }
  destruct (wsHeaderPairs_keys mixed canon Hpair) as [Hmixed Hcanon].
  destruct (fixWebSocketHeaders_upgrade mid mixed canon Hupmid Hpair) as [Hgone Hmoved].
  rewrite !Hthrough by assumption. split; [|exact Hgone].
  rewrite Hmoved. unfold HeaderOps.index. rewrite Hmid; [reflexivity|].
  intros ->. revert Hcanon. literal_notin.
Qed.

End WebSocketProperties.

Section HandlerProperties.
Context `{Collaborators}.

(** X11. Whatever the error, on a writer nothing was written to the
    ErrorHandler commits one of 499, 500, 502, 504 (never a status below
    400), writes that status's text after what the body held, and leaves
    the header map as it found it: it sets no Server header. *)
Theorem ErrorHandler_response w request err :
  ResponseWriter.wroteHeader w = false ->
  let w' := ErrorHandler w request err in
  ResponseWriter.status w' ∈ [499; 500; 502; 504] /\
  400 <= ResponseWriter.status w' /\
  ResponseWriter.body w'
  = (ResponseWriter.body w ++ http.StatusText (ResponseWriter.status w'))%string /\
  ResponseWriter.header w' = ResponseWriter.header w /\
  ResponseWriter.sentHeader w' = ResponseWriter.header w.
Proof.
  intros Hfresh w'.
  destruct (ErrorHandler_written w request err Hfresh) as [Hstatus Hbody].
  pose proof (errorStatusCode_range err) as Hrange.
  subst w'. rewrite Hbody, Hstatus.
  split; [exact Hrange|]. split.
  - rewrite !elem_of_cons in Hrange.
    destruct Hrange as [->|[->|[->|[->|Hnil]]]]; [..|by apply elem_of_nil in Hnil]; done.
  - split; [reflexivity|].
    unfold ErrorHandler, ResponseWriter.Write, ResponseWriter.WriteHeader.
    rewrite Hfresh. cbn. by split.
Qed.

(** X12. The classification looks through wrapping. An error wrapped with
    [%w] is classified as the error it wraps; a network error is classified
    by its cause first (502 when the cause is [io.EOF], else 499 when it is
    [context.Canceled]) and by its own timeout flag only otherwise. *)
Theorem errorStatusCode_through_wrapping msg timeout err :
  errorStatusCode (wrapError msg err) = errorStatusCode err /\
  errorStatusCode (netError timeout err)
  = (if errors.Is err io_EOF then 502
     else if errors.Is err context_Canceled then 499
     else if timeout then 504 else 502).
Proof.
  split.
  - unfold errorStatusCode. cbn.
    rewrite !bool_decide_eq_false_2 by discriminate. reflexivity.
  - unfold errorStatusCode. cbn.
    rewrite !bool_decide_eq_false_2 by discriminate. cbn.
    destruct (errors.Is err io_EOF); [reflexivity|].
    destruct (errors.Is err context_Canceled); [reflexivity|].
    by destruct timeout.
Qed.

(** X13. ModifyResponse sets the Server header of the upstream response to
    the single value octelium, replacing whatever the upstream sent, and
    changes nothing else: the other headers, the status and the body are
    kept, and a second application changes nothing. *)
Theorem ModifyResponse_server r :
  let r' := ModifyResponse r in
  Response.Header r' !! "Server" = Some ["octelium"] /\
  (forall k, k <> "Server" -> Response.Header r' !! k = Response.Header r !! k) /\
  Response.StatusCode r' = Response.StatusCode r /\
  Response.Body r' = Response.Body r /\
  ModifyResponse r' = r'.
Proof.
  intros r'. subst r'. unfold ModifyResponse, HeaderOps.Set_. cbn.
  change (textproto.CanonicalMIMEHeaderKey "Server") with "Server".
  split; [apply lookup_insert_eq|].
  split; [intros k Hk; by rewrite lookup_insert_ne|].
  split; [reflexivity|]. split; [reflexivity|].
  by rewrite insert_insert_eq.
Qed.


(** X15. Without a direct response, [getProxy] fails exactly when the
    upstream resolver fails, or when it succeeds and the transport resolver
    fails on its upstream, and it returns that very error; it returns a
    proxy exactly for the resolved upstream and its round tripper. *)
Theorem getProxy_results reqCtx :
  Config.GetDirect (ServiceConfig reqCtx) = None ->
  (forall e,
     getProxy reqCtx = Err e <->
     GetUpstream (ctxAuthResponse reqCtx) = Err e \/
     exists upstream,
       GetUpstream (ctxAuthResponse reqCtx) = Ok upstream /\
       getRoundTripper upstream = Err e) /\
  (forall h,
     getProxy reqCtx = Ok h <->
     exists upstream roundTripper,
       GetUpstream (ctxAuthResponse reqCtx) = Ok upstream /\
       getRoundTripper upstream = Ok roundTripper /\
       h = reverseProxy upstream roundTripper).
Proof.
  intros Hdirect. unfold getProxy. rewrite Hdirect.
  destruct (GetUpstream (ctxAuthResponse reqCtx)) as [upstream|e0].
  - destruct (getRoundTripper upstream) as [rt|e1] eqn:Hrt.
    + split.
      * intros e. split; [discriminate|].
        intros [[=]|(up' & [= <-] & Herr)]. rewrite Hrt in Herr. discriminate Herr.
      * intros h. split.
        -- intros [= <-]. by exists upstream, rt.
        -- intros (up' & rt' & [= <-] & Hrt' & ->). rewrite Hrt in Hrt'.
           by injection Hrt' as <-.
    + split.
      * intros e. split.
        -- intros [= <-]. right. by exists upstream.
        -- intros [[=]|(up' & [= <-] & Herr)]. rewrite Hrt in Herr. by injection Herr as <-.
      * intros h. split; [discriminate|].
        intros (up' & rt' & [= <-] & Hrt' & _). rewrite Hrt in Hrt'. discriminate Hrt'.
  - split.
    + intros e. split.
      * intros [= <-]. by left.
      * intros [[= <-]|(up' & [=] & _)]. reflexivity.
    + intros h. split; [discriminate|]. intros (up' & rt' & [=] & _).
Qed.

(** X16. When the round trip fails, on a writer nothing was written to, the
    caller gets the classified status of the transport error with its text
    as body, the header map is left as it was, and the one request that was
    dispatched is the Director's. *)
Theorem proxy_transport_error reqCtx upstream roundTripper rw r err :
  ResponseWriter.wroteHeader rw = false ->
  roundTripper (proxyPrepare (Director reqCtx upstream r).1) = Err err ->
  let served := ReverseProxy_ServeHTTP reqCtx upstream roundTripper rw r in
  dispatched served = [proxyPrepare (Director reqCtx upstream r).1] /\
  ResponseWriter.status (written served) = errorStatusCode err /\
  ResponseWriter.body (written served)
  = (ResponseWriter.body rw ++ http.StatusText (errorStatusCode err))%string /\
  ResponseWriter.header (written served) = ResponseWriter.header rw.
Proof.
  intros Hfresh Hrt served. subst served. unfold ReverseProxy_ServeHTTP.
  destruct (Director reqCtx upstream r) as [outreq logged]. cbn in Hrt |- *.
  rewrite Hrt. cbn [dispatched written].
  destruct (ErrorHandler_written rw (proxyPrepare outreq) err Hfresh) as [-> ->].
  repeat split.
  unfold ErrorHandler, ResponseWriter.Write, ResponseWriter.WriteHeader.
  rewrite Hfresh. reflexivity.
Qed.

(** X17. When the round trip succeeds, on a writer nothing was written to
    and that holds no Server header yet, the caller gets the upstream's
    status and body, and the committed headers carry Server: octelium in
    place of whatever Server value the upstream sent. *)
Theorem proxy_response_server reqCtx upstream roundTripper rw r res :
  ResponseWriter.wroteHeader rw = false ->
  ResponseWriter.header rw !! "Server" = None ->
  roundTripper (proxyPrepare (Director reqCtx upstream r).1) = Ok res ->
  let served := ReverseProxy_ServeHTTP reqCtx upstream roundTripper rw r in
  ResponseWriter.status (written served) = Response.StatusCode res /\
  ResponseWriter.body (written served)
  = (ResponseWriter.body rw ++ Response.Body res)%string /\
  ResponseWriter.sentHeader (written served) !! "Server" = Some ["octelium"].
Proof.
  intros Hfresh Hserver Hrt served. subst served. unfold ReverseProxy_ServeHTTP.
  destruct (Director reqCtx upstream r) as [outreq logged]. cbn in Hrt |- *.
  rewrite Hrt. cbn.
  unfold copyResponse, ResponseWriter.Write, ResponseWriter.WriteHeader. cbn.
  rewrite Hfresh. cbn. repeat split.
  rewrite lookup_union_with, Hserver. unfold HeaderOps.Set_.
  change (textproto.CanonicalMIMEHeaderKey "Server") with "Server".
  by rewrite lookup_insert_eq.
Qed.

(** X18. Served on a fresh writer, a direct response of either inline
    variant writes the configured content as the body under status 200,
    whatever status code is configured (the write of the body comes first
    and commits the response); the handler's header map ends with Server:
    octelium, and with the configured content type exactly when one is
    configured. *)
Theorem direct_response_inline_served resp content :
  Direct.Type_ resp = Some (Direct.Inline content) \/
  Direct.Type_ resp = Some (Direct.InlineBytes content) ->
  let w := directResponseHandler_ServeHTTP resp ResponseWriter.fresh in
  ResponseWriter.body w = content /\
  ResponseWriter.status w = 200 /\
  ResponseWriter.header w !! "Server" = Some ["octelium"] /\
  (Direct.ContentType resp <> "" ->
     ResponseWriter.header w !! "Content-Type" = Some [Direct.ContentType resp]) /\
  (Direct.ContentType resp = "" ->
     ResponseWriter.header w !! "Content-Type" = None).
Proof.
  intros Hvariant w.
  assert (Hw : w = directResponseFinish resp
                     (ResponseWriter.Write ResponseWriter.fresh content)).
  { subst w. unfold directResponseHandler_ServeHTTP. by destruct Hvariant as [-> | ->]. }
  rewrite Hw. clear Hw w. unfold directResponseFinish. cbn.
  unfold ResponseWriter.HeaderSet, ResponseWriter.WriteHeader, HeaderOps.Set_.
  change (textproto.CanonicalMIMEHeaderKey "Server") with "Server".
  change (textproto.CanonicalMIMEHeaderKey "Content-Type") with "Content-Type".
  destruct (String.eqb_spec (Direct.ContentType resp) "") as [Hct|Hct];
    destruct (_ && _); cbn;
    (split; [reflexivity|]); (split; [reflexivity|]);
    (split; [apply lookup_insert_eq|]); (split; [intros Hne|intros He]);
    first [ done
          | rewrite lookup_insert_ne by discriminate; first [ apply lookup_insert_eq | done ] ].
Qed.

(** X19. A direct response whose variant is unset is answered with status
    500 and nothing else, whatever content type and status code are
    configured: no body, no Content-Type, and no Server header. *)
Theorem direct_response_unset_variant contentType statusCode :
  let w := directResponseHandler_ServeHTTP (Direct.mk None contentType statusCode)
             ResponseWriter.fresh in
  ResponseWriter.status w = 500 /\
  ResponseWriter.body w = "" /\
  ResponseWriter.header w = ∅ /\
  ResponseWriter.sentHeader w = ∅.
Proof. by repeat split. Qed.

End HandlerProperties.

(** Case analysis of the membership of an event in a literal run. *)
Ltac event_inv H :=
  rewrite ?elem_of_cons, ?elem_of_nil in H;
  repeat (destruct H as [H|H]); try discriminate H; try contradiction.

Section CommandProperties.
Context `{cli.World}.

(** The four ways [namespace.doCmd] can run. *)
Lemma namespace_doCmd_cases args :
  (exists e, cli.GetCLIInfo args = Err e /\ namespace_doCmd args = ([], Err e)) \/
  (exists i e,
     cli.GetCLIInfo args = Ok i /\ cli.GetGRPCClientConn (cli.Domain i) = Err e /\
     namespace_doCmd args = ([cli.DialGRPC (cli.Domain i)], Err e)) \/
  (exists i conn e,
     cli.GetCLIInfo args = Ok i /\ cli.GetGRPCClientConn (cli.Domain i) = Ok conn /\
     cli.DeleteNamespace conn (cli.FirstArg i) = Some e /\
     namespace_doCmd args
     = ([cli.DialGRPC (cli.Domain i); cli.RPCDeleteNamespace (cli.FirstArg i);
         cli.ConnClose], Err e)) \/
  (exists i conn,
     cli.GetCLIInfo args = Ok i /\ cli.GetGRPCClientConn (cli.Domain i) = Ok conn /\
     cli.DeleteNamespace conn (cli.FirstArg i) = None /\
     namespace_doCmd args
     = ([cli.DialGRPC (cli.Domain i); cli.RPCDeleteNamespace (cli.FirstArg i);
         cli.LineInfo ("Namespace `%s` successfully deleted" ++ cli.newline)
           (cli.FirstArg i);
         cli.ConnClose], Ok tt)).
Proof.
  unfold namespace_doCmd.
  destruct (cli.GetCLIInfo args) as [i|e] eqn:Hinfo; [|left; eauto].
  destruct (cli.GetGRPCClientConn (cli.Domain i)) as [conn|e] eqn:Hconn; cbn.
  - rewrite Hconn. cbn.
    destruct (cli.DeleteNamespace conn (cli.FirstArg i)) as [e|] eqn:Hrpc; cbn.
    + right; right; left. exists i, conn, e. by rewrite Hrpc.
    + right; right; right. exists i, conn. by rewrite Hrpc.
  - rewrite Hconn. right; left. by exists i, e.
Qed.

(** X20. [namespace.doCmd] closes the connection on every path that opened
    one, as the last thing it does and after the one RPC it issues, whether
    the RPC failed or not; when the CLI info or the connection cannot be
    had, it returns that error with no RPC issued and nothing to close. *)
Theorem namespace_closes_connection args :
  let run := namespace_doCmd args in
  (forall i conn,
     cli.GetCLIInfo args = Ok i ->
     cli.GetGRPCClientConn (cli.Domain i) = Ok conn ->
     last run.1 = Some cli.ConnClose /\
     exists after,
       run.1 = (cli.DialGRPC (cli.Domain i) :: cli.RPCDeleteNamespace (cli.FirstArg i)
                  :: after ++ [cli.ConnClose])%list /\
       cli.ConnClose ∉ after) /\
  (forall i e,
     cli.GetCLIInfo args = Ok i ->
     cli.GetGRPCClientConn (cli.Domain i) = Err e ->
     run = ([cli.DialGRPC (cli.Domain i)], Err e)) /\
  (forall e, cli.GetCLIInfo args = Err e -> run = ([], Err e)).
Proof.
  intros run. subst run.
  destruct (namespace_doCmd_cases args)
    as [(e & Hinfo & ->)|[(i & e & Hinfo & Hconn & ->)
       |[(i & conn & e & Hinfo & Hconn & Hrpc & ->)|(i & conn & Hinfo & Hconn & Hrpc & ->)]]];
    rewrite Hinfo.
  - split; [intros i conn [=]|]. split; [intros i e' [=]|].
    by intros e' [= <-].
  - split; [intros i' conn' [= <-]; rewrite Hconn; intros [=]|].
    split; [|intros e' [=]].
    intros i' e' [= <-]. rewrite Hconn. by intros [= <-].
  - split; [|split; [intros i' e' [= <-]; rewrite Hconn; intros [=]|intros e' [=]]].
    intros i' conn' [= <-] _. split; [reflexivity|].
    exists []. split; [reflexivity|]. apply not_elem_of_nil.
  - split; [|split; [intros i' e' [= <-]; rewrite Hconn; intros [=]|intros e' [=]]].
    intros i' conn' [= <-] _. split; [reflexivity|].
    eexists [_]. split; [reflexivity|].
    rewrite not_elem_of_cons. split; [discriminate|apply not_elem_of_nil].
Qed.



(** X23. [authenticator.doCmd] returns no error exactly when the CLI info,
    the auth client and the delete RPC all succeed; it issues the RPC only
    once it has both the info and the client, for the first argument; it
    never closes a connection and never prints. *)
Theorem authenticator_deletes args :
  let run := authenticator_doCmd args in
  (run.2 = Ok tt <->
   exists i c,
     cli.GetCLIInfo args = Ok i /\ cli.NewAuthClient (cli.Domain i) = Ok c /\
     cli.DeleteAuthenticator c (cli.FirstArg i) = None) /\
  (forall name,
     cli.RPCDeleteAuthenticator name ∈ run.1 <->
     exists i c,
       cli.GetCLIInfo args = Ok i /\ cli.NewAuthClient (cli.Domain i) = Ok c /\
       name = cli.FirstArg i) /\
  (cli.ConnClose ∉ run.1) /\
  (forall format arg, cli.LineInfo format arg ∉ run.1).
Proof.
  intros run. subst run. unfold authenticator_doCmd.
  destruct (cli.GetCLIInfo args) as [i|e] eqn:Hinfo; cbn.
  - destruct (cli.NewAuthClient (cli.Domain i)) as [c|e] eqn:Hclient; cbn.
    + destruct (cli.DeleteAuthenticator c (cli.FirstArg i)) as [e|] eqn:Hrpc; cbn.
      * split; [split; [discriminate|]|].
        { intros (i' & c' & [= <-] & Hc & Hd). rewrite Hclient in Hc.
          injection Hc as <-. congruence. }
        split; [|split; [intros Hin; event_inv Hin|intros format arg Hin; event_inv Hin]].
        intros name. split.
        -- intros Hin. event_inv Hin. injection Hin as ->. by exists i, c.
        -- intros (i' & c' & [= <-] & _ & ->).
           apply list_elem_of_further, list_elem_of_here.
      * split; [split; [intros _; by exists i, c|done]|].
        split; [|split; [intros Hin; event_inv Hin|intros format arg Hin; event_inv Hin]].
        intros name. split.
        -- intros Hin. event_inv Hin. injection Hin as ->. by exists i, c.
        -- intros (i' & c' & [= <-] & _ & ->).
           apply list_elem_of_further, list_elem_of_here.
    + split; [split; [discriminate|]|].
      { intros (i' & c' & [= <-] & Hc & _). rewrite Hclient in Hc. discriminate Hc. }
      split; [|split; [intros Hin; event_inv Hin|intros format arg Hin; event_inv Hin]].
      intros name. split; [intros Hin; event_inv Hin|].
      intros (i' & c' & [= <-] & Hc & _). rewrite Hclient in Hc. discriminate Hc.
  - split; [split; [discriminate|intros (i' & c' & [=] & _)]|].
    split; [|split; [intros Hin; event_inv Hin|intros format arg Hin; event_inv Hin]].
    intros name. split; [intros Hin; event_inv Hin|]. intros (i' & c' & [=] & _).
Qed.

End CommandProperties.

(** * The further properties on concrete runs *)

(** A cookie passes through an unmanaged, signing route. *)
Lemma director_keeps_other_headers_witness :
  ("Cookie" ∉ rewrittenKeys) /\ ("Cookie" ∉ signerKeys) /\
  Request.Header
    (@Director Demo.collaborators (Demo.reqCtx false (Some (Demo.signingConfig "aws-key")))
       Demo.upstream (Demo.request {[ "Cookie" := ["session=abc"] ]})).1 !! "Cookie"
  = Some ["session=abc"].
Proof.
  assert (Hrewrite : "Cookie" ∉ rewrittenKeys) by literal_notin.
  assert (Hsigner : "Cookie" ∉ signerKeys) by literal_notin.
  split; [exact Hrewrite|]. split; [exact Hsigner|].
  rewrite (@director_keeps_other_headers Demo.collaborators
             (Demo.reqCtx false (Some (Demo.signingConfig "aws-key"))) Demo.upstream
             (Demo.request {[ "Cookie" := ["session=abc"] ]}) "Cookie"
             Demo_signer_frame Hrewrite Hsigner).
  reflexivity.
Defined.

(** No signing block, a secret that is missing, a secret the signer rejects. *)
Lemma director_warnings_witness :
  (@Director Demo.collaborators (Demo.reqCtx false None) Demo.upstream (Demo.request ∅)).2
  = [] /\
  (@Director Demo.collaborators (Demo.reqCtx false (Some (Demo.signingConfig "missing")))
     Demo.upstream (Demo.request ∅)).2 = [warnGetSecret].
Proof.
  split.
  - destruct (@director_warnings Demo.collaborators (Demo.reqCtx false None) Demo.upstream
                (Demo.request ∅)) as (_ & Hnone & _).
    by rewrite (Hnone eq_refl).
  - destruct (@director_warnings Demo.collaborators
                (Demo.reqCtx false (Some (Demo.signingConfig "missing"))) Demo.upstream
                (Demo.request ∅)) as (_ & _ & Hsome).
    destruct (Hsome (Demo.sigv4 "missing") eq_refl) as [[_ Hfetch] _].
    apply Hfetch. by exists (errorString "secret not found").
Defined.


(** The user agent of the handshake request is left alone by the repair. *)
Lemma fixWebSocketHeaders_frame_witness :
  Request.Header
    (@fixWebSocketHeaders Demo.collaborators
       (Demo.request (<["User-Agent" := ["curl/8"]]> Demo.handshake))) !! "User-Agent"
  = Some ["curl/8"].
Proof.
  destruct (@fixWebSocketHeaders_frame Demo.collaborators
              (Demo.request (<["User-Agent" := ["curl/8"]]> Demo.handshake)))
    as (_ & _ & Hother).
  rewrite Hother by literal_notin. reflexivity.
Defined.

(** The handshake request repaired twice loses its key. *)
Lemma fixWebSocketHeaders_twice_witness :
  Request.Header
    (@fixWebSocketHeaders Demo.collaborators
       (@fixWebSocketHeaders Demo.collaborators (Demo.request Demo.handshake)))
    !! "Sec-WebSocket-Key" = Some [] /\
  Request.Header
    (@fixWebSocketHeaders Demo.collaborators (Demo.request Demo.handshake))
    !! "Sec-WebSocket-Key" = Some ["dGhlIHNhbXBsZSBub25jZQ=="].
Proof.
  split; [|reflexivity].
  assert (Hin : ("Sec-WebSocket-Key", "Sec-Websocket-Key") ∈ wsHeaderPairs)
    by (unfold wsHeaderPairs; set_solver).
  apply (@fixWebSocketHeaders_twice Demo.collaborators (Demo.request Demo.handshake)
           _ _ handshake_is_upgrade Hin).
Defined.

(** An Upgrade header without any Connection header. *)
Lemma fixWebSocketHeaders_no_connection_witness :
  @isWebSocketUpgrade Demo.collaborators
    (Demo.request {[ "Upgrade" := ["websocket"];
                     "Sec-Websocket-Key" := ["dGhlIHNhbXBsZSBub25jZQ=="] ]}) = false /\
  Request.Header
    (@fixWebSocketHeaders Demo.collaborators
       (Demo.request {[ "Upgrade" := ["websocket"];
                        "Sec-Websocket-Key" := ["dGhlIHNhbXBsZSBub25jZQ=="] ]}))
    !! "Sec-Websocket-Key" = Some ["dGhlIHNhbXBsZSBub25jZQ=="].
Proof.
  assert (Hconn : HeaderOps.index
            (Request.Header
               (Demo.request {[ "Upgrade" := ["websocket"];
                                "Sec-Websocket-Key" := ["dGhlIHNhbXBsZSBub25jZQ=="] ]}))
            "Connection" = []) by reflexivity.
  destruct (@fixWebSocketHeaders_no_connection Demo.collaborators
              (Demo.request {[ "Upgrade" := ["websocket"];
                               "Sec-Websocket-Key" := ["dGhlIHNhbXBsZSBub25jZQ=="] ]})
              Hconn) as [Hno Hsame].
  split; [exact Hno|]. rewrite Hsame. reflexivity.
Defined.

(** The handshake through an unmanaged, signing route. *)
Lemma director_websocket_handshake_witness :
  Request.Header
    (@Director Demo.collaborators (Demo.reqCtx false (Some (Demo.signingConfig "aws-key")))
       Demo.upstream (Demo.request Demo.handshake)).1 !! "Sec-WebSocket-Version"
  = Some ["13"] /\
  Request.Header
    (@Director Demo.collaborators (Demo.reqCtx false (Some (Demo.signingConfig "aws-key")))
       Demo.upstream (Demo.request Demo.handshake)).1 !! "Sec-Websocket-Version"
  = None.
Proof.
  assert (Hin : ("Sec-WebSocket-Version", "Sec-Websocket-Version") ∈ wsHeaderPairs)
    by (unfold wsHeaderPairs; set_solver).
  exact (@director_websocket_handshake Demo.collaborators
           (Demo.reqCtx false (Some (Demo.signingConfig "aws-key"))) Demo.upstream
           (Demo.request Demo.handshake) _ _ Demo_signer_frame handshake_is_upgrade Hin).
Defined.

(** A refused connection on a fresh writer. *)
Lemma ErrorHandler_response_witness :
  ResponseWriter.status
    (ErrorHandler ResponseWriter.fresh (Demo.request ∅)
       (netError false (errorString "connection refused"))) = 502 /\
  ResponseWriter.body
    (ErrorHandler ResponseWriter.fresh (Demo.request ∅)
       (netError false (errorString "connection refused"))) = "Bad Gateway" /\
  ResponseWriter.header
    (ErrorHandler ResponseWriter.fresh (Demo.request ∅)
       (netError false (errorString "connection refused"))) !! "Server" = None.
Proof.
  destruct (ErrorHandler_response ResponseWriter.fresh (Demo.request ∅)
              (netError false (errorString "connection refused")) eq_refl)
    as (_ & _ & Hbody & Hheader & _).
  split; [reflexivity|]. split; [rewrite Hbody; reflexivity|].
  rewrite Hheader. reflexivity.
Defined.


(** A plain route resolves to the one upstream and its round tripper. *)
Lemma getProxy_results_witness :
  @getProxy Demo.collaborators (Demo.reqCtx false None)
  = Ok (reverseProxy Demo.upstream Demo.roundTrip).
Proof.
  destruct (@getProxy_results Demo.collaborators (Demo.reqCtx false None) eq_refl)
    as [_ Hok].
  apply Hok. by exists Demo.upstream, Demo.roundTrip.
Defined.

(** The caller goes away during the round trip. *)
Lemma proxy_transport_error_witness :
  ResponseWriter.status
    (written (@ReverseProxy_ServeHTTP Demo.collaborators (Demo.reqCtx false None)
                Demo.upstream DemoRoutes.canceledTrip ResponseWriter.fresh
                (Demo.request ∅))) = 499 /\
  ResponseWriter.body
    (written (@ReverseProxy_ServeHTTP Demo.collaborators (Demo.reqCtx false None)
                Demo.upstream DemoRoutes.canceledTrip ResponseWriter.fresh
                (Demo.request ∅))) = "".
Proof.
  destruct (@proxy_transport_error Demo.collaborators (Demo.reqCtx false None)
              Demo.upstream DemoRoutes.canceledTrip ResponseWriter.fresh (Demo.request ∅)
              (wrapError "round trip" context_Canceled) eq_refl eq_refl)
    as (_ & Hstatus & Hbody & _).
  split; [rewrite Hstatus|rewrite Hbody]; reflexivity.
Defined.

(** An upstream that answers 204 and calls itself nginx. *)
Lemma proxy_response_server_witness :
  ResponseWriter.status
    (written (@ReverseProxy_ServeHTTP Demo.collaborators (Demo.reqCtx false None)
                Demo.upstream DemoRoutes.nginxTrip ResponseWriter.fresh
                (Demo.request ∅))) = 204 /\
  ResponseWriter.sentHeader
    (written (@ReverseProxy_ServeHTTP Demo.collaborators (Demo.reqCtx false None)
                Demo.upstream DemoRoutes.nginxTrip ResponseWriter.fresh
                (Demo.request ∅))) !! "Server" = Some ["octelium"].
Proof.
  destruct (@proxy_response_server Demo.collaborators (Demo.reqCtx false None)
              Demo.upstream DemoRoutes.nginxTrip ResponseWriter.fresh (Demo.request ∅)
              (Response.mk 204 {[ "Server" := ["nginx/1.25"] ]} "")
              eq_refl eq_refl eq_refl) as (Hstatus & _ & Hserver).
  split; [rewrite Hstatus; reflexivity|exact Hserver].
Defined.

(** The maintenance page: configured as 503, served as 200. *)
Lemma direct_response_inline_served_witness :
  ResponseWriter.body
    (directResponseHandler_ServeHTTP DemoRoutes.maintenance ResponseWriter.fresh)
  = "down for maintenance" /\
  ResponseWriter.status
    (directResponseHandler_ServeHTTP DemoRoutes.maintenance ResponseWriter.fresh)
  = 200.
Proof.
  destruct (direct_response_inline_served DemoRoutes.maintenance "down for maintenance"
              (or_intror eq_refl)) as (Hbody & Hstatus & _).
  by split.
Defined.

(** Deleting [ns1] succeeds; deleting [default] is refused by the API. *)
Lemma namespace_closes_connection_witness :
  last (@namespace_doCmd DemoCLI.world ["ns1"]).1 = Some cli.ConnClose /\
  last (@namespace_doCmd DemoCLI.world ["default"]).1 = Some cli.ConnClose.
Proof.
  split.
  - destruct (@namespace_closes_connection DemoCLI.world ["ns1"]) as (Hopen & _).
    exact (proj1 (Hopen ["ns1"] tt eq_refl eq_refl)).
  - destruct (@namespace_closes_connection DemoCLI.world ["default"]) as (Hopen & _).
    exact (proj1 (Hopen ["default"] tt eq_refl eq_refl)).
Defined.



Lemma authenticator_deletes_witness :
  (@authenticator_doCmd DemoCLI.world ["totp-123456"]).2 = Ok tt /\
  cli.RPCDeleteAuthenticator "totp-123456"
    ∈ (@authenticator_doCmd DemoCLI.world ["totp-123456"]).1.
Proof.
  destruct (@authenticator_deletes DemoCLI.world ["totp-123456"]) as (Hok & Hrpc & _).
  split.
  - apply Hok. by exists ["totp-123456"], tt.
  - apply Hrpc. by exists ["totp-123456"], tt.
Defined.

Example namespace_run_one_arg :
  @namespace_Cmd DemoCLI.world ["ns1"]
  = ([cli.DialGRPC "example.com"; cli.RPCDeleteNamespace "ns1";
      cli.LineInfo ("Namespace `%s` successfully deleted" ++ cli.newline) "ns1";
      cli.ConnClose], Ok tt).
Proof. reflexivity. Qed.

Example namespace_run_two_args :
  @namespace_Cmd DemoCLI.world ["a"; "b"]
  = ([], Err (errorString "accepts 1 arg(s), received 2")).
Proof. reflexivity. Qed.
